(** * mango-explorer: Context, ids.json market lookup, SPL transfer builder

    A shallow embedding of [mango/context.py] and
    [mango/idsjsonmarketlookup.py], with the properties their
    specification states about them.

    Conventions of the embedding:
    - a Python function that can raise returns an [outcome]: either
      [Return v] or [Raise e] with the exception that escapes;
    - code that sleeps, logs or talks to the RPC node returns a [run]:
      the ordered list of effects it performed, and its outcome;
    - [MangoConstants] (the content of ids.json) and the module-level
      [default_*] values are arguments of the functions that read them;
    - a [PublicKey] is identified with its base58 text, so [==] on keys
      is equality of that text and [str(key)] gives it back;
    - an id a [Context] is given is a [PublicKey] or, when it was typed
      on the command line, a [str]: both are kept apart ([IdValue]). *)

From stdpp Require Import base option list strings gmap pretty.
From Stdlib Require Import ZArith Lia Ascii.

Local Open Scope Z_scope.
Set Warnings "-register-all".

(** ** Python values, exceptions and outcomes *)

Module Py.

(** The objects an RPC envelope can hold: JSON data, and the class
    object [str] itself, which the source compares against with [is]. *)
Inductive value : Type :=
| VNone
| VBool (b : bool)
| VInt (z : Z)
| VStr (s : string)
| VList (items : list value)
| VDict (items : list (string * value))
| VStrClass.

(** An f-string, kept as its literal and interpolated parts. *)
Inductive fpart : Type :=
| Lit (s : string)
| Interp (v : value).

Definition fstring : Type := list fpart.

Inductive exn : Type :=
| KeyError (key : string)
| IndexError
| TypeError
| UnboundLocalError (name : string)
| Exception (msg : fstring).

Inductive outcome (A : Type) : Type :=
| Return (a : A)
| Raise (e : exn).

Arguments Return {A} a.
Arguments Raise {A} e.

#[global] Instance outcome_ret : MRet outcome := fun _ a => Return a.

#[global] Instance outcome_bind : MBind outcome := fun _ _ f m =>
  match m with
  | Return a => f a
  | Raise e => Raise e
  end.

#[global] Instance outcome_fmap : FMap outcome := fun _ _ f m =>
  match m with
  | Return a => Return (f a)
  | Raise e => Raise e
  end.

(** [d[k]] and [k in d] on a dict with string keys, kept in insertion
    order. *)
Fixpoint dict_get {V : Type} (k : string) (d : list (string * V)) : option V :=
  match d with
  | [] => None
  | (k', v) :: d' => if bool_decide (k' = k) then Some v else dict_get k d'
  end.

Definition dict_in {V : Type} (k : string) (d : list (string * V)) : bool :=
  match dict_get k d with
  | Some _ => true
  | None => false
  end.

Definition getitem {V : Type} (d : list (string * V)) (k : string) : outcome V :=
  match dict_get k d with
  | Some v => Return v
  | None => Raise (KeyError k)
  end.

(** [v[k]] with a string subscript on an arbitrary object: only a dict
    accepts it. *)
Definition subscript (v : value) (k : string) : outcome value :=
  match v with
  | VDict d => getitem d k
  | _ => Raise TypeError
  end.

(** [v is str]: identity with the class object. *)
Definition is_str_class (v : value) : bool :=
  match v with
  | VStrClass => true
  | _ => false
  end.

(** [v is None] *)
Definition is_None (v : value) : bool :=
  match v with
  | VNone => true
  | _ => false
  end.

(** [seq[i]] on a list. *)
Definition index {A : Type} (l : list A) (i : nat) : outcome A :=
  match l !! i with
  | Some x => Return x
  | None => Raise IndexError
  end.

(** [range(0, n)] *)
Definition range0 (n : Z) : list Z := Z.of_nat <$> seq 0 (Z.to_nat n).

(** The text of an f-string whose interpolated values are strings or
    integers. *)
Definition format_value (v : value) : option string :=
  match v with
  | VStr s => Some s
  | VInt z => Some (pretty z)
  | _ => None
  end.

Fixpoint render (f : fstring) : option string :=
  match f with
  | [] => Some ""%string
  | Lit s :: f' => (fun r => s +:+ r) <$> render f'
  | Interp v :: f' =>
      match format_value v, render f' with
      | Some s, Some r => Some (s +:+ r)
      | _, _ => None
      end
  end.

(** What [s.upper()] gives on ASCII text: the letters a-z become A-Z
    and nothing else changes. The lookups take [str.upper] as a
    parameter; [upper] is the function to run them with on ASCII
    symbols. *)
Definition upper_ascii (c : ascii) : ascii :=
  let n := nat_of_ascii c in
  if (andb (97 <=? n) (n <=? 122))%nat then ascii_of_nat (n - 32) else c.

Fixpoint upper (s : string) : string :=
  match s with
  | EmptyString => EmptyString
  | String c s' => String (upper_ascii c) (upper s')
  end.

End Py.

Import Py.

(** ** Addresses, clients and effects *)

(** [solana.publickey.PublicKey], by its base58 text: [PublicKey(text)]
    is [mkPublicKey text] and [str(key)] is [b58 key]. The addresses of
    the registry are taken to be well formed, so building a key from
    one does not raise. *)
Record PublicKey : Type := mkPublicKey { b58 : string }.

#[global] Instance PublicKey_eq_dec : EqDecision PublicKey.
Proof. solve_decision. Defined.

(** The object found where an id is expected: a [PublicKey], or the
    [str] the parser hands over for an option declared [type=str] and
    typed on the command line. A key is used as such an object without
    notice. *)
Inductive IdValue : Type :=
| Key (key : PublicKey)
| Text (text : string).

Coercion Key : PublicKey >-> IdValue.

#[global] Instance IdValue_eq_dec : EqDecision IdValue.
Proof. solve_decision. Defined.

(** [str(x)] *)
Definition id_str (x : IdValue) : string :=
  match x with
  | Key key => b58 key
  | Text text => text
  end.

(** [x == key] for a [PublicKey] [key]: [PublicKey.__eq__] answers
    [False] for an object that is not a [PublicKey], a [str] of the
    same text included, and compares the bytes of two keys. *)
Abbreviation eq_key x key := (bool_decide (x = Key key)).

(** [solana.rpc.api.Client(endpoint)] *)
Record Client : Type := mkClient { endpoint : string }.

#[global] Instance Client_eq_dec : EqDecision Client.
Proof. solve_decision. Defined.

(** What a run does to the world: [time.sleep], [logger.info], and a
    [get_confirmed_transaction] request sent through a client. *)
Inductive event : Type :=
| Sleep (seconds : Z)
| LogInfo (msg : fstring)
| GetConfirmedTransaction (c : Client) (transaction_id : string).

Definition run (A : Type) : Type := (list event * outcome A)%type.

#[global] Instance run_ret : MRet run := fun _ a => ([], Return a).

#[global] Instance run_bind : MBind run := fun _ _ f m =>
  match m with
  | (tr, Return a) => let '(tr', r) := f a in (tr ++ tr', r)
  | (tr, Raise e) => (tr, Raise e)
  end.

Definition emit (e : event) : run unit := ([e], Return tt).

Definition lift {A : Type} (o : outcome A) : run A := ([], o).

(** What the node behind a client answers to the [n]-th
    [get_confirmed_transaction] of a transaction id. *)
Definition Node : Type := Client -> string -> nat -> list (string * value).

(** ** ids.json: the static registry [MangoConstants] *)

Module Ids.

(** Modelled from the spec: constants.py and ids.json are not among the
    sources. The registry is "keyed by cluster name, provides per-cluster
    program address, DEX program address, a mapping of group name to
    group metadata (...), token list, spot/perp market lists with
    name/address/base-symbol fields, and a quote-symbol marker"; the
    records below have the fields the code subscripts, under the keys it
    uses. *)

(** [MangoConstants[cluster]["mango_groups"][name]] *)
Record GroupEntry : Type := mkGroupEntry { mango_group_pk : string }.

(** [MangoConstants[cluster]]; [mango_groups] keeps the file's order,
    which the scan of [new_from_group_id] follows. *)
Record ClusterEntry : Type := mkClusterEntry {
  mango_program_id : string;
  dex_program_id : string;
  mango_groups : list (string * GroupEntry)
}.

(** An element of a group's ["tokens"]. *)
Record TokenData : Type := mkTokenData {
  td_symbol : string;
  td_mintKey : string;
  td_decimals : Z
}.

(** An element of a group's ["perpMarkets"] or ["spotMarkets"]. *)
Record MarketData : Type := mkMarketData {
  md_name : string;
  md_key : string;
  md_publicKey : string;
  md_baseSymbol : string
}.

(** An element of [MangoConstants["groups"]]. *)
Record Group : Type := mkGroup {
  group_cluster : string;
  group_publicKey : string;
  group_quoteSymbol : string;
  group_tokens : list TokenData;
  group_perpMarkets : list MarketData;
  group_spotMarkets : list MarketData
}.

Record Constants : Type := mkConstants {
  cluster_urls : gmap string string;
  clusters : gmap string ClusterEntry;
  groups : list Group
}.

(** [MangoConstants["cluster_urls"][cluster]] *)
Definition cluster_url_of (K : Constants) (cluster : string) : outcome string :=
  match cluster_urls K !! cluster with
  | Some url => Return url
  | None => Raise (KeyError cluster)
  end.

(** [MangoConstants[cluster]] *)
Definition cluster_entry (K : Constants) (cluster : string) : outcome ClusterEntry :=
  match clusters K !! cluster with
  | Some e => Return e
  | None => Raise (KeyError cluster)
  end.

(** [MangoConstants[cluster]["mango_groups"][group_name]["mango_group_pk"]] *)
Definition group_pk_of (K : Constants) (cluster group_name : string) : outcome string :=
  e ← cluster_entry K cluster;
  g ← getitem (mango_groups e) group_name;
  mret (mango_group_pk g).

End Ids.

(** ** context.py *)

(** The module-level [default_*] values, computed once at import. *)
Record Defaults : Type := mkDefaults {
  default_cluster : string;
  default_cluster_url : string;
  default_program_id : PublicKey;
  default_dex_program_id : PublicKey;
  default_group_name : string;
  default_group_id : PublicKey
}.

(** The environment variables the module reads. *)
Record Environ : Type := mkEnviron {
  CLUSTER : option string;
  CLUSTER_URL : option string;
  GROUP_NAME : option string
}.

(** [os.environ.get(name) or fallback]: the fallback is evaluated only
    when the variable is unset or empty. *)
Definition env_or (o : option string) (fallback : outcome string) : outcome string :=
  match o with
  | Some s => if bool_decide (s = ""%string) then fallback else Return s
  | None => fallback
  end.

Definition load_defaults (env : Environ) (K : Ids.Constants) : outcome Defaults :=
  cluster ← env_or (CLUSTER env) (Return "mainnet-beta"%string);
  cluster_url ← env_or (CLUSTER_URL env) (Ids.cluster_url_of K cluster);
  e ← Ids.cluster_entry K cluster;
  group_name ← env_or (GROUP_NAME env) (Return "BTC_ETH_USDT"%string);
  group_pk ← Ids.group_pk_of K cluster group_name;
  mret {| default_cluster := cluster;
          default_cluster_url := cluster_url;
          default_program_id := mkPublicKey (Ids.mango_program_id e);
          default_dex_program_id := mkPublicKey (Ids.dex_program_id e);
          default_group_name := group_name;
          default_group_id := mkPublicKey group_pk |}.

Definition _OLD_3_TOKEN_GROUP_ID : PublicKey :=
  mkPublicKey "7pVYhpKUHw88neQHxgExSH6cerMZ1Axx1ALQP9sxtvQV".

Definition _OLD_3_TOKEN_PROGRAM_ID : PublicKey :=
  mkPublicKey "JD3bq9hGdy38PuWQ4h2YJpELmHVGPPfFSuFkpzAd9zfu".

(** The attributes of a [Context]; the logger and the token lookup
    carry no configuration and are left out. *)
Record Context : Type := mkContext {
  cluster : string;
  cluster_url : string;
  client : Client;
  program_id : IdValue;
  dex_program_id : IdValue;
  group_name : string;
  group_id : IdValue;
  commitment : string;
  encoding : string;
  retry_pauses : list Z
}.

Definition __init__ (cluster cluster_url : string) (program_id dex_program_id : IdValue)
    (group_name : string) (group_id : IdValue) : Context :=
  let configured_program_id :=
    if eq_key group_id _OLD_3_TOKEN_GROUP_ID
    then Key _OLD_3_TOKEN_PROGRAM_ID
    else program_id in
  {| cluster := cluster;
     cluster_url := cluster_url;
     client := mkClient cluster_url;
     program_id := configured_program_id;
     dex_program_id := dex_program_id;
     group_name := group_name;
     group_id := group_id;
     commitment := "single";
     encoding := "base64";
     retry_pauses := [4; 8; 16; 20; 30] |}.

Definition unwrap_or_raise_exception (response : list (string * value)) : outcome value :=
  if dict_in "error" response then
    err ← getitem response "error";
    '(message, code) ←
      (if is_str_class err then
         mret (err, VInt (-1))
       else
         message ← subscript err "message";
         code ← subscript err "code";
         mret (message, code));
    Raise (Exception [Lit "Error response from server: '"; Interp message;
                      Lit "', code: "; Interp code])
  else
    getitem response "result".

(** [argparse.Namespace] as filled by
    [add_context_command_line_parameters]. The three id options are
    declared [type=str] with a [PublicKey] default: the parser gives the
    default as it is ([Key]) when the option is absent, and the text
    typed ([Text]) when it is present. *)
Record Namespace : Type := mkNamespace {
  args_cluster : string;
  args_cluster_url : string;
  args_program_id : IdValue;
  args_dex_program_id : IdValue;
  args_group_name : string;
  args_group_id : IdValue
}.

Section context.

Variable MangoConstants : Ids.Constants.
Variable D : Defaults.
Variable node : Node.

Definition default_context : Context :=
  __init__ (default_cluster D) (default_cluster_url D) (default_program_id D)
           (default_dex_program_id D) (default_group_name D) (default_group_id D).

(** The body of [for wait in range(0, max_wait_in_seconds)]. The loop
    either returns from the function ([inl]), or runs out and leaves
    [wait] bound to its last value, or unbound ([inr]). *)
Fixpoint confirmation_loop (transaction_id : string) (waits : list Z) (wait : option Z)
    : run (value + option Z) :=
  match waits with
  | [] => mret (inr wait)
  | w :: waits' =>
      emit (Sleep 1);;
      emit (GetConfirmedTransaction (client default_context) transaction_id);;
      let confirmed := node (client default_context) transaction_id (Z.to_nat w) in
      result ← lift (getitem confirmed "result");
      if is_None result then
        confirmation_loop transaction_id waits' (Some w)
      else
        emit (LogInfo [Lit "Confirmed after "; Interp (VInt w); Lit " seconds."]);;
        result ← lift (getitem confirmed "result");
        mret (inl result)
  end.

Definition wait_for_confirmation (self : Context) (transaction_id : string)
    (max_wait_in_seconds : Z) : run value :=
  emit (LogInfo [Lit "Waiting up to "; Interp (VInt max_wait_in_seconds);
                 Lit " seconds for "; Interp (VStr transaction_id); Lit "."]);;
  r ← confirmation_loop transaction_id (range0 max_wait_in_seconds) None;
  match r with
  | inl result => mret result
  | inr None => lift (Raise (UnboundLocalError "wait"))
  | inr (Some wait) =>
      emit (LogInfo [Lit "Timed out after "; Interp (VInt wait);
                     Lit " seconds waiting on transaction ";
                     Interp (VStr transaction_id); Lit "."]);;
      mret VNone
  end.

Definition new_from_cluster (self : Context) (cluster : string) : outcome Context :=
  cluster_url ← Ids.cluster_url_of MangoConstants cluster;
  e ← Ids.cluster_entry MangoConstants cluster;
  let program_id := mkPublicKey (Ids.mango_program_id e) in
  let dex_program_id := mkPublicKey (Ids.dex_program_id e) in
  group_pk ← Ids.group_pk_of MangoConstants cluster (group_name self);
  mret (__init__ cluster cluster_url program_id dex_program_id
                 (group_name self) (mkPublicKey group_pk)).

Definition new_from_cluster_url (self : Context) (cluster_url : string) : Context :=
  __init__ (cluster self) cluster_url (program_id self) (dex_program_id self)
           (group_name self) (group_id self).

(** [program_id = self.program_id], replaced by the cluster's program
    when [self] had the old 3-token group. *)
Definition inherited_program_id (self : Context) : outcome IdValue :=
  if eq_key (group_id self) _OLD_3_TOKEN_GROUP_ID then
    e ← Ids.cluster_entry MangoConstants (cluster self);
    mret (Key (mkPublicKey (Ids.mango_program_id e)))
  else
    mret (program_id self).

Definition new_from_group_name (self : Context) (group_name : string) : outcome Context :=
  group_pk ← Ids.group_pk_of MangoConstants (cluster self) group_name;
  program_id ← inherited_program_id self;
  mret (__init__ (cluster self) (cluster_url self) program_id (dex_program_id self)
                 group_name (mkPublicKey group_pk)).

(** [for group_name in mango_groups: if mango_groups[group_name][...] ==
    group_id_str: actual_group_name = group_name; break] *)
Fixpoint scan_group_names (mango_groups : list (string * Ids.GroupEntry))
    (names : list string) (group_id_str : string) (actual_group_name : string)
    : outcome string :=
  match names with
  | [] => mret actual_group_name
  | group_name :: names' =>
      g ← getitem mango_groups group_name;
      if bool_decide (Ids.mango_group_pk g = group_id_str) then mret group_name
      else scan_group_names mango_groups names' group_id_str actual_group_name
  end.

Definition new_from_group_id (self : Context) (group_id : PublicKey) : outcome Context :=
  let group_id_str := b58 group_id in
  e ← Ids.cluster_entry MangoConstants (cluster self);
  actual_group_name ←
    scan_group_names (Ids.mango_groups e) (fst <$> Ids.mango_groups e) group_id_str
                     "« Unknown Group »";
  program_id ← inherited_program_id self;
  mret (__init__ (cluster self) (cluster_url self) program_id (dex_program_id self)
                 actual_group_name group_id).

Definition from_command_line (cluster cluster_url : string)
    (program_id dex_program_id : IdValue) (group_name : string) (group_id : IdValue)
    : outcome Context :=
  group_id ←
    (if andb (negb (bool_decide (group_name = default_group_name D)))
             (eq_key group_id (default_group_id D))
     then (fun pk => Key (mkPublicKey pk)) <$>
            Ids.group_pk_of MangoConstants cluster group_name
     else mret group_id);
  mret (__init__ cluster cluster_url program_id dex_program_id group_name group_id).

Definition from_cluster_and_group_name (cluster group_name : string) : outcome Context :=
  cluster_url ← Ids.cluster_url_of MangoConstants cluster;
  e ← Ids.cluster_entry MangoConstants cluster;
  let program_id := mkPublicKey (Ids.mango_program_id e) in
  let dex_program_id := mkPublicKey (Ids.dex_program_id e) in
  group_pk ← Ids.group_pk_of MangoConstants cluster group_name;
  mret (__init__ cluster cluster_url program_id dex_program_id group_name
                 (mkPublicKey group_pk)).

Definition from_context_command_line_parameters (args : Namespace) : outcome Context :=
  group_id ←
    (if andb (negb (bool_decide (args_group_name args = default_group_name D)))
             (eq_key (args_group_id args) (default_group_id D))
     then (fun pk => Key (mkPublicKey pk)) <$>
            Ids.group_pk_of MangoConstants (args_cluster args) (args_group_name args)
     else mret (args_group_id args));
  let program_id :=
    if eq_key group_id (mkPublicKey "7pVYhpKUHw88neQHxgExSH6cerMZ1Axx1ALQP9sxtvQV")
    then Key (mkPublicKey "JD3bq9hGdy38PuWQ4h2YJpELmHVGPPfFSuFkpzAd9zfu")
    else args_program_id args in
  mret (__init__ (args_cluster args) (args_cluster_url args) program_id
                 (args_dex_program_id args) (args_group_name args) group_id).

Definition solana_context : Context :=
  new_from_cluster_url default_context "https://api.mainnet-beta.solana.com".

Definition serum_context : Context :=
  new_from_cluster_url default_context "https://solana-api.projectserum.com".

Definition rpcpool_context : Context :=
  new_from_cluster_url default_context "https://api.rpcpool.com".

End context.

(** ** idsjsonmarketlookup.py *)

Inductive IdsJsonMarketType : Type := PERP | SPOT.

(** Modelled from the spec: token.py is not among the sources. A token
    is "{symbol, address, decimals}"; [_load_tokens] builds it as
    [Token(symbol, name, mint, decimals)]. *)
Record Token : Type := mkToken {
  symbol : string;
  name : string;
  mint : PublicKey;
  decimals : Z
}.

(** Modelled from the spec: market.py, perpsmarket.py and spotmarket.py
    are not among the sources. A market is "polymorphic over variants
    {SpotMarket, PerpsMarket}; each holds {base, quote, address} (+ group
    address for spot markets)", in the order [_from_dict] passes them. *)
Inductive Market : Type :=
| PerpsMarket (base quote : Token) (address : PublicKey)
| SpotMarket (base quote : Token) (address group_address : PublicKey).

Record IdsJsonMarketLookup : Type := mkIdsJsonMarketLookup { lookup_cluster : string }.

(** [a and b] where either side can raise; [b] is evaluated only when
    [a] is true. *)
Definition py_and (a b : outcome bool) : outcome bool :=
  x ← a; if x : bool then b else mret false.

(** [tokens[i].symbol == s] *)
Definition symbol_at (tokens : list Token) (i : nat) (s : string) : outcome bool :=
  t ← index tokens i; mret (bool_decide (symbol t = s)).

Definition could_not_find (base_symbol quote_symbol : string) : exn :=
  Exception [Lit "Could not find base ('"; Interp (VStr base_symbol);
             Lit "') or quote symbol ('"; Interp (VStr quote_symbol);
             Lit "') in tokens."].

Definition _from_dict (market_type : IdsJsonMarketType) (group_address : PublicKey)
    (data : Ids.MarketData) (tokens : list Token) (quote_symbol : string)
    : outcome Market :=
  let base_symbol := Ids.md_baseSymbol data in
  c1 ← py_and (symbol_at tokens 0 quote_symbol) (symbol_at tokens 1 base_symbol);
  '(base, quote) ←
    (if c1 : bool then
       quote ← index tokens 0;
       base ← index tokens 1;
       mret (base, quote)
     else
       c2 ← py_and (symbol_at tokens 0 base_symbol) (symbol_at tokens 1 quote_symbol);
       if c2 : bool then
         base ← index tokens 0;
         quote ← index tokens 1;
         mret (base, quote)
       else
         Raise (could_not_find base_symbol quote_symbol));
  let address := mkPublicKey (Ids.md_publicKey data) in
  match market_type with
  | PERP => mret (PerpsMarket base quote address)
  | SPOT => mret (SpotMarket base quote address group_address)
  end.

Definition _load_tokens (data : list Ids.TokenData) : list Token :=
  (fun token_data =>
     mkToken (Ids.td_symbol token_data) (Ids.td_symbol token_data)
             (mkPublicKey (Ids.td_mintKey token_data)) (Ids.td_decimals token_data))
  <$> data.

(** A [for] loop whose body may leave the function: [Some r] is the
    exit taken (a [return], or an exception on its way out), [None]
    lets the loop go on. *)
Fixpoint first_return {A R : Type} (body : A -> option R) (xs : list A) : option R :=
  match xs with
  | [] => None
  | x :: xs' =>
      match body x with
      | Some r => Some r
      | None => first_return body xs'
      end
  end.

(** A [for] loop that updates a local variable and may raise. *)
Fixpoint for_each {A S : Type} (body : A -> S -> outcome S) (xs : list A) (s : S)
    : outcome S :=
  match xs with
  | [] => mret s
  | x :: xs' => s' ← body x s; for_each body xs' s'
  end.

Section lookup.

(** [str.upper], the built-in of Python: any function on text; [upper]
    is what it does on ASCII text. *)
Variable str_upper : string -> string.

Variable MangoConstants : Ids.Constants.

Definition find_by_symbol (self : IdsJsonMarketLookup) (symbol : string)
    : outcome (option Market) :=
  let exit :=
    first_return (fun group =>
      if bool_decide (Ids.group_cluster group = lookup_cluster self) then
        let group_address := mkPublicKey (Ids.group_publicKey group) in
        match
          first_return (fun market_data =>
            if bool_decide (str_upper (Ids.md_name market_data) = str_upper symbol) then
              let tokens := _load_tokens (Ids.group_tokens group) in
              Some (Some <$> _from_dict PERP group_address market_data tokens
                                        (Ids.group_quoteSymbol group))
            else None) (Ids.group_perpMarkets group)
        with
        | Some r => Some r
        | None =>
            first_return (fun market_data =>
              if bool_decide (str_upper (Ids.md_name market_data) = str_upper symbol) then
                let tokens := _load_tokens (Ids.group_tokens group) in
                Some (Some <$> _from_dict SPOT group_address market_data tokens
                                          (Ids.group_quoteSymbol group))
              else None) (Ids.group_spotMarkets group)
        end
      else None) (Ids.groups MangoConstants) in
  match exit with
  | Some r => r
  | None => mret None
  end.

Definition find_by_address (self : IdsJsonMarketLookup) (address : PublicKey)
    : outcome (option Market) :=
  let exit :=
    first_return (fun group =>
      if bool_decide (Ids.group_cluster group = lookup_cluster self) then
        let group_address := mkPublicKey (Ids.group_publicKey group) in
        match
          first_return (fun market_data =>
            if bool_decide (Ids.md_key market_data = b58 address) then
              let tokens := _load_tokens (Ids.group_tokens group) in
              Some (Some <$> _from_dict PERP group_address market_data tokens
                                        (Ids.group_quoteSymbol group))
            else None) (Ids.group_perpMarkets group)
        with
        | Some r => Some r
        | None =>
            first_return (fun market_data =>
              if bool_decide (Ids.md_key market_data = b58 address) then
                let tokens := _load_tokens (Ids.group_tokens group) in
                Some (Some <$> _from_dict SPOT group_address market_data tokens
                                          (Ids.group_quoteSymbol group))
              else None) (Ids.group_spotMarkets group)
        end
      else None) (Ids.groups MangoConstants) in
  match exit with
  | Some r => r
  | None => mret None
  end.

Definition all_markets (self : IdsJsonMarketLookup) : outcome (list Market) :=
  for_each (fun group markets =>
    if bool_decide (Ids.group_cluster group = lookup_cluster self) then
      let group_address := mkPublicKey (Ids.group_publicKey group) in
      markets ←
        for_each (fun market_data (markets : list Market) =>
          let tokens := _load_tokens (Ids.group_tokens group) in
          market ← _from_dict PERP group_address market_data tokens
                              (Ids.group_quoteSymbol group);
          mret [market]) (Ids.group_perpMarkets group) markets;
      for_each (fun market_data (markets : list Market) =>
        let tokens := _load_tokens (Ids.group_tokens group) in
        market ← _from_dict SPOT group_address market_data tokens
                            (Ids.group_quoteSymbol group);
        mret [market]) (Ids.group_spotMarkets group) markets
    else mret markets) (Ids.groups MangoConstants) [].

End lookup.

(** ** The SPL transfer builder *)

(** A decimal number [coefficient * 10 ^ exponent], as the human-readable
    quantities are written. *)
Record Decimal : Type := mkDecimal { coefficient : Z; exponent : Z }.

Definition Decimal_of_int (z : Z) : Decimal := mkDecimal z 0.

(** [d * k] for an integer [k] *)
Definition Decimal_mul_int (d : Decimal) (k : Z) : Decimal :=
  mkDecimal (coefficient d * k) (exponent d).

(** [int(d)]: the integer part, rounding towards zero. *)
Definition int_of_Decimal (d : Decimal) : Z :=
  if 0 <=? exponent d then coefficient d * 10 ^ exponent d
  else coefficient d ÷ 10 ^ (- exponent d).

(** Modelled from the spec: the attributes of
    [TransferSplTokensInstructionBuilder] (instructions.py is not among
    the sources), as its test reads them: "inputs {context, wallet,
    token, source, destination, quantity}", the quantity kept as
    [amount]. *)
Record TransferSplTokensInstructionBuilder : Type := mkTransferSplTokensInstructionBuilder {
  builder_context : Context;
  builder_wallet : value;
  builder_token : Token;
  builder_source : PublicKey;
  builder_destination : PublicKey;
  amount : Z
}.

(** Modelled from the spec: the constructor of
    [TransferSplTokensInstructionBuilder] (instructions.py is not among
    the sources; only its test is). The builder stores its inputs and
    "scal[es] quantity (a human-readable amount) into base units by
    multiplying by 10^decimals and storing the integer result"; the test
    expects [int(quantity * (10 ** token.decimals))]. *)
Definition new_TransferSplTokensInstructionBuilder (context : Context) (wallet : value)
    (token : Token) (source destination : PublicKey) (quantity : Decimal)
    : TransferSplTokensInstructionBuilder :=
  {| builder_context := context;
     builder_wallet := wallet;
     builder_token := token;
     builder_source := source;
     builder_destination := destination;
     amount := int_of_Decimal (Decimal_mul_int quantity (10 ^ decimals token)) |}.

(** ** Vocabulary of the statements *)

(** The invariant on the legacy 3-token group. *)
Definition legacy_program_forced (ctx : Context) : Prop :=
  group_id ctx = Key _OLD_3_TOKEN_GROUP_ID -> program_id ctx = Key _OLD_3_TOKEN_PROGRAM_ID.

(** The market object of each kind. *)
Definition market_of_type (market_type : IdsJsonMarketType) (group_address address : PublicKey)
    (base quote : Token) : Market :=
  match market_type with
  | PERP => PerpsMarket base quote address
  | SPOT => SpotMarket base quote address group_address
  end.

Definition base_of (m : Market) : Token :=
  match m with
  | PerpsMarket base _ _ => base
  | SpotMarket base _ _ _ => base
  end.

Definition quote_of (m : Market) : Token :=
  match m with
  | PerpsMarket _ quote _ => quote
  | SpotMarket _ quote _ _ => quote
  end.

Definition address_of (m : Market) : PublicKey :=
  match m with
  | PerpsMarket _ _ address => address
  | SpotMarket _ _ address _ => address
  end.

(** The market entries of a group in the order the lookups scan them:
    the perp markets, then the spot markets. *)
Definition entries (group : Ids.Group) : list (IdsJsonMarketType * Ids.MarketData) :=
  ((fun market_data => (PERP, market_data)) <$> Ids.group_perpMarkets group)
  ++ ((fun market_data => (SPOT, market_data)) <$> Ids.group_spotMarkets group).

(** The market a lookup builds from one entry of a group. *)
Definition construct (group : Ids.Group) (entry : IdsJsonMarketType * Ids.MarketData)
    : outcome Market :=
  _from_dict entry.1 (mkPublicKey (Ids.group_publicKey group)) entry.2
             (_load_tokens (Ids.group_tokens group)) (Ids.group_quoteSymbol group).

(** ** A registry and contexts to run the code on *)

Definition mainnet_entry : Ids.ClusterEntry :=
  Ids.mkClusterEntry "5fNfvyp5czQVX77yoACa3JJVEhdRaWjPuazuWgjhTqEH"
    "9xQeWvG816bUx9EPjHmaT23yvVM2ZWbrrpZb9PusVFin"
    [("BTC_ETH_USDT"%string,
      Ids.mkGroupEntry "7pVYhpKUHw88neQHxgExSH6cerMZ1Axx1ALQP9sxtvQV");
     ("BTC_ETH_SOL_SRM_USDC"%string,
      Ids.mkGroupEntry "2oogpTYm1sp6LPZAWD3bp2wsFpnV2kXL1s52yyFhW5vp")].

Definition devnet_entry : Ids.ClusterEntry :=
  Ids.mkClusterEntry "9XzhtAtDXxW2rjbeVFhTq4fnhD8dqzr154r5b2z6pxEp"
    "DESVgJVGajEgKGXhb6XmqDHGz3VjdgP7rEVESBgxmroY"
    [("BTC_ETH_USDT"%string,
      Ids.mkGroupEntry "B9Uddrao7b7sCjNZp1BJSQqFzqhMEmBxD2SvYTs2TSBn")].

(** A devnet group listing three tokens. *)
Definition devnet_group : Ids.Group :=
  Ids.mkGroup "devnet" "Ec2enZyoC4nGpEfu2sUNAa2nUGJHWxoUWYSEJ2hNTWTA" "USDC"
    [ Ids.mkTokenData "USDC" "8FRFC6MoGGkMFQwngccyu69VnYbzykGeez7ignHVAFSN" 6;
      Ids.mkTokenData "BTC" "3UNBZ6o52WTWwjac2kPUb4FyodhU1vFkRJheu1Sh2TvU" 6;
      Ids.mkTokenData "ETH" "Cu84KB3tDL6SbFgToHMLYVDJJXdJjenNzSKikeAvzmkA" 6 ]
    [ Ids.mkMarketData "BTC-PERP" "perp-btc" "FHQtNjRHA9U5ahrH7mWky3gamouhesyQ5QvpeGKrTh2z"
        "BTC" ]
    [ Ids.mkMarketData "BTC/USDC" "spot-btc" "BCqDfFd119UyNEC2HavKdy3F4qhy6EMGirSurNWKgioW"
        "BTC";
      Ids.mkMarketData "ETH/USDC" "spot-eth" "6MNPzJbwYrnBvnhdLKNXPqWfnVh3KqGtj3vSbUvSd3dH"
        "ETH" ].

Definition example_constants : Ids.Constants :=
  {| Ids.cluster_urls :=
       {[ "mainnet-beta"%string := "https://solana-api.projectserum.com"%string;
          "devnet"%string := "https://api.devnet.solana.com"%string ]};
     Ids.clusters :=
       {[ "mainnet-beta"%string := mainnet_entry; "devnet"%string := devnet_entry ]};
     Ids.groups := [devnet_group] |}.

Definition example_defaults : Defaults :=
  {| default_cluster := "mainnet-beta";
     default_cluster_url := "https://solana-api.projectserum.com";
     default_program_id := mkPublicKey "5fNfvyp5czQVX77yoACa3JJVEhdRaWjPuazuWgjhTqEH";
     default_dex_program_id := mkPublicKey "9xQeWvG816bUx9EPjHmaT23yvVM2ZWbrrpZb9PusVFin";
     default_group_name := "BTC_ETH_USDT";
     default_group_id := mkPublicKey "7pVYhpKUHw88neQHxgExSH6cerMZ1Axx1ALQP9sxtvQV" |}.

(** A context on devnet, for the devnet group of the same name. *)
Definition example_devnet_context : Context :=
  __init__ "devnet" "https://api.devnet.solana.com"
    (mkPublicKey "9XzhtAtDXxW2rjbeVFhTq4fnhD8dqzr154r5b2z6pxEp")
    (mkPublicKey "DESVgJVGajEgKGXhb6XmqDHGz3VjdgP7rEVESBgxmroY")
    "BTC_ETH_USDT" (mkPublicKey "B9Uddrao7b7sCjNZp1BJSQqFzqhMEmBxD2SvYTs2TSBn").

(** A context on mainnet for the five-token group. *)
Definition example_mainnet_context : Context :=
  __init__ "mainnet-beta" "https://solana-api.projectserum.com"
    (mkPublicKey "5fNfvyp5czQVX77yoACa3JJVEhdRaWjPuazuWgjhTqEH")
    (mkPublicKey "9xQeWvG816bUx9EPjHmaT23yvVM2ZWbrrpZb9PusVFin")
    "BTC_ETH_SOL_SRM_USDC" (mkPublicKey "2oogpTYm1sp6LPZAWD3bp2wsFpnV2kXL1s52yyFhW5vp").


(** The command line [--group-id 7pVYhpKUHw88neQHxgExSH6cerMZ1Axx1ALQP9sxtvQV]:
    the id is text, the other options are at their defaults. *)
Definition typed_legacy_args : Namespace :=
  {| args_cluster := "mainnet-beta";
     args_cluster_url := "https://solana-api.projectserum.com";
     args_program_id := mkPublicKey "5fNfvyp5czQVX77yoACa3JJVEhdRaWjPuazuWgjhTqEH";
     args_dex_program_id := mkPublicKey "9xQeWvG816bUx9EPjHmaT23yvVM2ZWbrrpZb9PusVFin";
     args_group_name := "BTC_ETH_USDT";
     args_group_id := Text "7pVYhpKUHw88neQHxgExSH6cerMZ1Axx1ALQP9sxtvQV" |}.


(** Groups that list exactly their two tokens, so that every market
    entry can be built. *)
Definition group_A : Ids.Group :=
  Ids.mkGroup "devnet" "GroupA" "USDC"
    [ Ids.mkTokenData "USDC" "MintUSDC" 6; Ids.mkTokenData "BTC" "MintBTC" 6 ]
    [ Ids.mkMarketData "BTC-PERP" "a-perp-btc" "PerpBTC" "BTC" ]
    [ Ids.mkMarketData "BTC/USDC" "a-spot-btc" "SpotBTC" "BTC" ].

Definition group_M : Ids.Group :=
  Ids.mkGroup "mainnet-beta" "GroupM" "USDC"
    [ Ids.mkTokenData "USDC" "MintUSDC" 6; Ids.mkTokenData "SOL" "MintSOL" 9 ]
    []
    [ Ids.mkMarketData "SOL/USDC" "m-spot-sol" "SpotSOL" "SOL" ].

Definition group_B : Ids.Group :=
  Ids.mkGroup "devnet" "GroupB" "USDC"
    [ Ids.mkTokenData "ETH" "MintETH" 6; Ids.mkTokenData "USDC" "MintUSDC" 6 ]
    [ Ids.mkMarketData "ETH-PERP" "b-perp-eth" "PerpETH" "ETH" ]
    [].

Definition group_C : Ids.Group :=
  Ids.mkGroup "devnet" "GroupC" "USDC"
    [ Ids.mkTokenData "USDC" "MintUSDC" 6; Ids.mkTokenData "SRM" "MintSRM" 6 ]
    []
    [].

Definition two_token_constants : Ids.Constants :=
  {| Ids.cluster_urls := ∅;
     Ids.clusters := ∅;
     Ids.groups := [group_A; group_M; group_B; group_C] |}.

Definition fake_token : Token :=
  mkToken "FAKE" "Fake Token" (mkPublicKey "FakeMint") 2.

(** The effects of [n] rounds of sleeping a second and polling. *)
Definition poll_events (c : Client) (transaction_id : string) (n : nat) : list event :=
  concat (replicate n [Sleep 1; GetConfirmedTransaction c transaction_id]).

(** A node that has the transaction only behind one endpoint. *)
Definition node_confirming_at (url : string) : Node := fun c _ _ =>
  if bool_decide (endpoint c = url)
  then [("result"%string, VDict [("slot"%string, VInt 1)])]
  else [("result"%string, VNone)].

Definition node_never_confirming : Node := fun _ _ _ => [("result"%string, VNone)].

(** The first entry, in scanning order, of a group of the cluster that
    satisfies [matches]. *)
Definition first_match (K : Ids.Constants) (cluster : string)
    (matches : Ids.MarketData -> bool)
    : option (Ids.Group * (IdsJsonMarketType * Ids.MarketData)) :=
  first_return (fun group =>
    if bool_decide (Ids.group_cluster group = cluster) then
      first_return (fun entry => if matches entry.2 then Some (group, entry) else None)
                   (entries group)
    else None) (Ids.groups K).

(** The body of the loop of [all_markets] over the groups. *)
Definition markets_after_group (self : IdsJsonMarketLookup) (group : Ids.Group)
    (markets : list Market) : outcome (list Market) :=
  if bool_decide (Ids.group_cluster group = lookup_cluster self) then
    markets ←
      for_each (fun market_data (_ : list Market) =>
        market ← construct group (PERP, market_data); mret [market])
        (Ids.group_perpMarkets group) markets;
    for_each (fun market_data (_ : list Market) =>
      market ← construct group (SPOT, market_data); mret [market])
      (Ids.group_spotMarkets group) markets
  else mret markets.

(** ** context.py: lookups by name and address, parser defaults *)

(** [for stored_name, stored_address in collection.items(): if
    stored_address == address_string: return stored_name] *)
Fixpoint _lookup_name_by_address (address : PublicKey) (collection : list (string * string))
    : option string :=
  let address_string := b58 address in
  match collection with
  | [] => None
  | (stored_name, stored_address) :: collection' =>
      if bool_decide (stored_address = address_string) then Some stored_name
      else _lookup_name_by_address address collection'
  end.

Fixpoint _lookup_address_by_name (name : string) (collection : list (string * string))
    : option PublicKey :=
  match collection with
  | [] => None
  | (stored_name, stored_address) :: collection' =>
      if bool_decide (stored_name = name) then Some (mkPublicKey stored_address)
      else _lookup_address_by_name name collection'
  end.

(** [for name, values in mango_groups.items(): if
    values["mango_group_pk"] == str(group_address): return name] *)
Fixpoint scan_group_items (items : list (string * Ids.GroupEntry)) (group_address : PublicKey)
    : option string :=
  match items with
  | [] => None
  | (name, values) :: items' =>
      if bool_decide (Ids.mango_group_pk values = b58 group_address) then Some name
      else scan_group_items items' group_address
  end.

(** [x or y] for an optional string [x]: [y] replaces [None] and the
    empty string. *)
Definition or_str (x : option string) (y : string) : string :=
  match x with
  | Some s => if bool_decide (s = ""%string) then y else s
  | None => y
  end.

Section context_lookups.

Variable MangoConstants : Ids.Constants.

(** [MangoConstants[cluster]["oracles"]], a dict from oracle name to
    address, or the [KeyError] of the subscripts. *)
Variable oracles : string -> outcome (list (string * string)).

Variable D : Defaults.

Definition lookup_group_name (self : Context) (group_address : PublicKey) : outcome string :=
  e ← Ids.cluster_entry MangoConstants (cluster self);
  match scan_group_items (Ids.mango_groups e) group_address with
  | Some name => mret name
  | None => mret "« Unknown Group »"%string
  end.

Definition lookup_oracle_name (self : Context) (token_address : PublicKey) : outcome string :=
  collection ← oracles (cluster self);
  mret (or_str (_lookup_name_by_address token_address collection) "« Unknown Oracle »").

(** What [parser.parse_args] gives for a command line with none of the
    options of [add_context_command_line_parameters]: the default of
    each of them. *)
Definition parsed_defaults : Namespace :=
  {| args_cluster := default_cluster D;
     args_cluster_url := default_cluster_url D;
     args_program_id := default_program_id D;
     args_dex_program_id := default_dex_program_id D;
     args_group_name := default_group_name D;
     args_group_id := default_group_id D |}.

End context_lookups.

(** A node that answers null to the first [k] polls and has the
    transaction from then on. *)
Definition node_confirming_from (k : nat) : Node := fun _ _ i =>
  if (i <? k)%nat
  then [("result"%string, VNone)]
  else [("result"%string, VDict [("slot"%string, VInt 1)])].

Definition example_oracles (cluster : string) : outcome (list (string * string)) :=
  if bool_decide (cluster = "devnet"%string)
  then Return [("BTC"%string, "OracleBTC"%string); (""%string, "OracleNameless"%string);
               ("ETH"%string, "OracleETH"%string)]
  else Raise (KeyError cluster).

(** The effects that are log lines. *)
Definition is_log (e : event) : Prop := exists msg, e = LogInfo msg.

(** * Properties *)

(** ** The outcome monad *)

Lemma bind_Return_inv {A B : Type} (m : outcome A) (f : A -> outcome B) (b : B) :
  m ≫= f = Return b -> exists a, m = Return a /\ f a = Return b.
Proof. destruct m as [a|e]; simpl; [eauto | discriminate]. Qed.

Lemma fmap_Return_inv {A B : Type} (f : A -> B) (m : outcome A) (b : B) :
  f <$> m = Return b -> exists a, m = Return a /\ b = f a.
Proof. destruct m as [a|e]; simpl; [intros [= <-]; eauto | discriminate]. Qed.

Lemma getitem_Return {V : Type} (d : list (string * V)) (k : string) (v : V) :
  dict_get k d = Some v -> getitem d k = Return v.
Proof. unfold getitem. by intros ->. Qed.

(** Take apart a hypothesis saying that a chain of binds returned. *)
Ltac inv_outcome H :=
  repeat match type of H with
  | _ ≫= _ = Return _ =>
      let a := fresh "a" in
      let Ha := fresh "Ha" in
      apply bind_Return_inv in H as (a & Ha & H)
  | mret _ = Return _ => injection H as H
  | Return _ = Return _ => injection H as H
  end.

(** ** unwrap_or_raise_exception *)

Lemma unwrap_result (response : list (string * value)) (v : value) :
  dict_get "error" response = None ->
  dict_get "result" response = Some v ->
  unwrap_or_raise_exception response = Return v.
Proof.
  intros Herr Hres. unfold unwrap_or_raise_exception, dict_in.
  rewrite Herr. by apply getitem_Return.
Qed.

Lemma unwrap_structured_error (response fields : list (string * value)) (message code : value) :
  dict_get "error" response = Some (VDict fields) ->
  dict_get "message" fields = Some message ->
  dict_get "code" fields = Some code ->
  unwrap_or_raise_exception response
  = Raise (Exception [Lit "Error response from server: '"; Interp message;
                      Lit "', code: "; Interp code]).
Proof.
  intros Herr Hm Hc. unfold unwrap_or_raise_exception, dict_in, getitem.
  rewrite Herr. simpl. unfold getitem. by rewrite Hm, Hc.
Qed.

Example unwrap_result_42 :
  unwrap_or_raise_exception [("result"%string, VInt 42)] = Return (VInt 42).
Proof. reflexivity. Qed.

Example unwrap_bad_7 :
  unwrap_or_raise_exception
    [("error"%string, VDict [("message"%string, VStr "bad"); ("code"%string, VInt 7)])]
  = Raise (Exception [Lit "Error response from server: '"; Interp (VStr "bad");
                      Lit "', code: "; Interp (VInt 7)]).
Proof. reflexivity. Qed.

Example unwrap_bad_7_text :
  render [Lit "Error response from server: '"; Interp (VStr "bad");
          Lit "', code: "; Interp (VInt 7)]
  = Some "Error response from server: 'bad', code: 7"%string.
Proof. reflexivity. Qed.

(** The [-1] branch is taken only when the error is the class [str]
    itself, which no decoded envelope holds. *)
Lemma unwrap_default_code_only_for_class (response : list (string * value)) (err : value) :
  dict_get "error" response = Some err ->
  (exists message,
     unwrap_or_raise_exception response
     = Raise (Exception [Lit "Error response from server: '"; Interp message;
                         Lit "', code: "; Interp (VInt (-1))])) ->
  err = VStrClass
  \/ exists fields, err = VDict fields /\ dict_get "code" fields = Some (VInt (-1)).
Proof.
  intros Herr [message H]. unfold unwrap_or_raise_exception, dict_in, getitem in H.
  rewrite Herr in H. simpl in H.
  destruct err as [| | | | |fields|]; simpl in H; try discriminate; [|by left].
  right. exists fields. split; [done|]. unfold getitem in H.
  destruct (dict_get "message" fields); simpl in H; [|discriminate].
  destruct (dict_get "code" fields); simpl in H; [|discriminate].
  by injection H as -> ->.
Qed.

Lemma unwrap_string_error (response : list (string * value)) (s : string) :
  dict_get "error" response = Some (VStr s) ->
  unwrap_or_raise_exception response = Raise TypeError.
Proof.
  intros Herr. unfold unwrap_or_raise_exception, dict_in, getitem. by rewrite Herr.
Qed.

(** C2: on the envelope [{"error": "oops"}] the test [response["error"]
    is str] compares the string with the class object and is false, so
    the code subscripts the string with ["message"]: a [TypeError]
    escapes, where the specification asks for the generic error with
    message "oops" and code -1. *)
Theorem unwrap_bare_string_error_raises_TypeError :
  unwrap_or_raise_exception [("error"%string, VStr "oops")] = Raise TypeError.
Proof. reflexivity. Qed.

(** ** _from_dict *)

Lemma index_0 {A : Type} (x : A) (l : list A) : index (x :: l) 0 = Return x.
Proof. reflexivity. Qed.

Lemma index_1 {A : Type} (x y : A) (l : list A) : index (x :: y :: l) 1 = Return y.
Proof. reflexivity. Qed.

Lemma from_dict_pair_eq market_type group_address data t0 t1 rest quote_symbol :
  _from_dict market_type group_address data (t0 :: t1 :: rest) quote_symbol
  = let base_symbol := Ids.md_baseSymbol data in
    let address := mkPublicKey (Ids.md_publicKey data) in
    if bool_decide (symbol t0 = quote_symbol /\ symbol t1 = base_symbol) then
      Return (market_of_type market_type group_address address t1 t0)
    else if bool_decide (symbol t0 = base_symbol /\ symbol t1 = quote_symbol) then
      Return (market_of_type market_type group_address address t0 t1)
    else Raise (could_not_find base_symbol quote_symbol).
Proof.
  unfold _from_dict, py_and, symbol_at. rewrite !index_0, !index_1. simpl.
  repeat case_bool_decide; simpl; destruct market_type; simpl; try reflexivity;
    exfalso; tauto.
Qed.

(** C7: with at least two tokens supplied, [_from_dict] returns the
    market of the requested kind, taking quote and base from the first
    two tokens when their symbols are the quote symbol and the entry's
    base symbol in this order, or base and quote when they are in the
    other order; a perp market carries base, quote and address, a spot
    market also the group address. For every other pair of symbols it
    raises the exception whose message names the base and the quote
    symbol. *)
Theorem from_dict_matches_the_first_two_tokens
    (market_type : IdsJsonMarketType) (group_address : PublicKey) (data : Ids.MarketData)
    (t0 t1 : Token) (rest : list Token) (quote_symbol : string) :
  let base_symbol := Ids.md_baseSymbol data in
  let address := mkPublicKey (Ids.md_publicKey data) in
  let result := _from_dict market_type group_address data (t0 :: t1 :: rest) quote_symbol in
  (symbol t0 = quote_symbol -> symbol t1 = base_symbol ->
     result = Return (market_of_type market_type group_address address t1 t0))
  /\ (symbol t0 = base_symbol -> symbol t1 = quote_symbol ->
      ~ (symbol t0 = quote_symbol /\ symbol t1 = base_symbol) ->
      result = Return (market_of_type market_type group_address address t0 t1))
  /\ (~ (symbol t0 = quote_symbol /\ symbol t1 = base_symbol) ->
      ~ (symbol t0 = base_symbol /\ symbol t1 = quote_symbol) ->
      result = Raise (Exception [Lit "Could not find base ('"; Interp (VStr base_symbol);
                                 Lit "') or quote symbol ('"; Interp (VStr quote_symbol);
                                 Lit "') in tokens."]))
  /\ (forall m, result = Return m ->
      symbol (base_of m) = base_symbol /\ symbol (quote_of m) = quote_symbol
      /\ address_of m = address
      /\ match market_type with
         | PERP => m = PerpsMarket (base_of m) (quote_of m) address
         | SPOT => m = SpotMarket (base_of m) (quote_of m) address group_address
         end).
Proof.
  intros base_symbol address result. subst result.
  rewrite from_dict_pair_eq. fold base_symbol address. cbv zeta.
  repeat split.
  - intros H0 H1. by rewrite bool_decide_eq_true_2.
  - intros H0 H1 Hn. rewrite (bool_decide_eq_false_2 _ Hn).
    by rewrite bool_decide_eq_true_2.
  - intros Hn1 Hn2.
    by rewrite (bool_decide_eq_false_2 _ Hn1), (bool_decide_eq_false_2 _ Hn2).
  - revert H. repeat case_bool_decide; intros [= <-] || intros [=];
      destruct market_type; simpl; tauto.
  - revert H. repeat case_bool_decide; intros [= <-] || intros [=];
      destruct market_type; simpl; tauto.
  - revert H. repeat case_bool_decide; intros [= <-] || intros [=];
      by destruct market_type.
  - revert H. repeat case_bool_decide; intros [= <-] || intros [=];
      by destruct market_type.
Qed.

Lemma could_not_find_text (base_symbol quote_symbol : string) :
  match could_not_find base_symbol quote_symbol with
  | Exception msg =>
      render msg = Some ("Could not find base ('" +:+ base_symbol +:+
                         "') or quote symbol ('" +:+ quote_symbol +:+ "') in tokens.")
  | _ => False
  end.
Proof. reflexivity. Qed.

(** With fewer than two tokens the subscripts fail first. *)
Lemma from_dict_no_tokens market_type group_address data quote_symbol :
  _from_dict market_type group_address data [] quote_symbol = Raise IndexError.
Proof. reflexivity. Qed.

(** ** The SPL transfer builder *)

(** C6: for a token with non-negative decimals the stored amount is the
    integer [quantity * 10 ^ decimals]: exactly that product for a whole
    quantity and for one with at most [decimals] fractional digits, and
    its integer part in general. *)
Theorem transfer_amount_is_quantity_scaled
    (context : Context) (wallet : value) (token : Token) (source destination : PublicKey) :
  0 <= decimals token ->
  (forall q : Z,
     amount (new_TransferSplTokensInstructionBuilder context wallet token source destination
               (Decimal_of_int q))
     = q * 10 ^ decimals token)
  /\ (forall c k : Z, 0 <= k <= decimals token ->
      amount (new_TransferSplTokensInstructionBuilder context wallet token source destination
                (mkDecimal c (- k)))
      = c * 10 ^ (decimals token - k))
  /\ (forall c e : Z, 0 <= e ->
      amount (new_TransferSplTokensInstructionBuilder context wallet token source destination
                (mkDecimal c e))
      = c * 10 ^ decimals token * 10 ^ e)
  /\ (forall c k : Z, 0 < k ->
      amount (new_TransferSplTokensInstructionBuilder context wallet token source destination
                (mkDecimal c (- k)))
      = (c * 10 ^ decimals token) ÷ 10 ^ k).
Proof.
  intros Hd. unfold new_TransferSplTokensInstructionBuilder, int_of_Decimal,
    Decimal_mul_int, Decimal_of_int. simpl. repeat split.
  - intros q. simpl. lia.
  - intros c k [Hk0 Hk].
    destruct (Z.leb_spec 0 (- k)) as [Hle|Hlt].
    + assert (k = 0) as -> by lia. simpl. rewrite Z.sub_0_r. lia.
    + rewrite Z.opp_involutive.
      replace (10 ^ decimals token) with (10 ^ (decimals token - k) * 10 ^ k).
      * rewrite Z.mul_assoc. apply Z.quot_mul. apply Z.pow_nonzero; lia.
      * rewrite <- Z.pow_add_r by lia. f_equal. lia.
  - intros c e He. destruct (Z.leb_spec 0 e); [done|lia].
  - intros c k Hk. destruct (Z.leb_spec 0 (- k)); [lia|]. by rewrite Z.opp_involutive.
Qed.

(** ** Construction of contexts *)

(** With no environment variable set, the module computes the example
    defaults from the example registry. *)
Example load_example_defaults :
  load_defaults (mkEnviron None None None) example_constants = Return example_defaults.
Proof. by vm_compute. Qed.

Lemma init_legacy cluster cluster_url program_id dex_program_id group_name group_id :
  legacy_program_forced
    (__init__ cluster cluster_url program_id dex_program_id group_name group_id).
Proof.
  unfold legacy_program_forced, __init__. simpl. intros Hg.
  by rewrite bool_decide_eq_true_2.
Qed.

Lemma init_other_group cluster cluster_url program_id' dex_program_id group_name
    (group_id : IdValue) :
  group_id <> _OLD_3_TOKEN_GROUP_ID ->
  program_id (__init__ cluster cluster_url program_id' dex_program_id group_name group_id)
  = program_id'.
Proof. intros Hg. unfold __init__. simpl. by rewrite bool_decide_eq_false_2. Qed.

#[local] Hint Resolve init_legacy : core.

(** For ids that are keys the invariant holds on every path: each ends
    in [__init__], so a context whose group id is the key of the old
    3-token group has the key of the old program as its program id. *)
Lemma constructed_contexts_keep_the_invariant (K : Ids.Constants) (D : Defaults) :
  (forall cluster cluster_url program_id dex_program_id group_name group_id,
     legacy_program_forced
       (__init__ cluster cluster_url program_id dex_program_id group_name group_id))
  /\ (forall self cluster ctx,
      new_from_cluster K self cluster = Return ctx -> legacy_program_forced ctx)
  /\ (forall self cluster_url, legacy_program_forced (new_from_cluster_url self cluster_url))
  /\ (forall self group_name ctx,
      new_from_group_name K self group_name = Return ctx -> legacy_program_forced ctx)
  /\ (forall self group_id ctx,
      new_from_group_id K self group_id = Return ctx -> legacy_program_forced ctx)
  /\ (forall cluster cluster_url program_id dex_program_id group_name group_id ctx,
      from_command_line K D cluster cluster_url program_id dex_program_id group_name group_id
      = Return ctx -> legacy_program_forced ctx)
  /\ (forall cluster group_name ctx,
      from_cluster_and_group_name K cluster group_name = Return ctx ->
      legacy_program_forced ctx)
  /\ (forall args ctx,
      from_context_command_line_parameters K D args = Return ctx ->
      legacy_program_forced ctx)
  /\ legacy_program_forced (default_context D)
  /\ legacy_program_forced (solana_context D)
  /\ legacy_program_forced (serum_context D)
  /\ legacy_program_forced (rpcpool_context D).
Proof.
  repeat split.
  - auto.
  - intros self cluster ctx H. unfold new_from_cluster in H. inv_outcome H. by subst.
  - intros self cluster_url. apply init_legacy.
  - intros self group_name ctx H. unfold new_from_group_name in H. inv_outcome H. by subst.
  - intros self group_id ctx H. unfold new_from_group_id in H. inv_outcome H. by subst.
  - intros ? ? ? ? ? ? ctx H. unfold from_command_line in H. inv_outcome H. by subst.
  - intros cluster group_name ctx H. unfold from_cluster_and_group_name in H.
    inv_outcome H. by subst.
  - intros args ctx H. unfold from_context_command_line_parameters in H.
    inv_outcome H. by subst.
  - apply init_legacy.
  - apply init_legacy.
  - apply init_legacy.
  - apply init_legacy.
Qed.

(** ** from_context_command_line_parameters *)


(** C1: the command line [--group-id 7pVYhpKUHw88neQHxgExSH6cerMZ1Axx1ALQP9sxtvQV]
    gives a context for the old 3-token group whose program id is the
    default one of the registry, not the old program: the id arrives as
    text, and the comparisons of [from_context_command_line_parameters]
    and of the constructor with the key of the old group are false of
    it. The same group id left at its default, a key, gets the old
    program. *)
Theorem typed_legacy_group_id_keeps_the_program_id :
  (exists ctx,
     from_context_command_line_parameters example_constants example_defaults
       typed_legacy_args = Return ctx
     /\ id_str (group_id ctx) = b58 _OLD_3_TOKEN_GROUP_ID
     /\ program_id ctx = Key (mkPublicKey "5fNfvyp5czQVX77yoACa3JJVEhdRaWjPuazuWgjhTqEH")
     /\ id_str (program_id ctx) <> b58 _OLD_3_TOKEN_PROGRAM_ID)
  /\ (exists ctx,
      from_context_command_line_parameters example_constants example_defaults
        (parsed_defaults example_defaults) = Return ctx
      /\ id_str (group_id ctx) = b58 _OLD_3_TOKEN_GROUP_ID
      /\ program_id ctx = Key _OLD_3_TOKEN_PROGRAM_ID).
Proof.
  split.
  - eexists. split; [by vm_compute|]. by vm_compute.
  - eexists. split; [by vm_compute|]. by vm_compute.
Qed.



(** The other fields are the parsed ones. *)
Lemma command_line_other_fields (K : Ids.Constants) (D : Defaults) (args : Namespace) ctx :
  from_context_command_line_parameters K D args = Return ctx ->
  cluster ctx = args_cluster args /\ cluster_url ctx = args_cluster_url args
  /\ dex_program_id ctx = args_dex_program_id args
  /\ group_name ctx = args_group_name args.
Proof.
  unfold from_context_command_line_parameters. intros H. inv_outcome H. by subst.
Qed.

(** ** new_from_cluster *)

(** C8, as the code has it: for a cluster with a URL and an entry in
    the registry, and a context whose group name is a group of that
    cluster, [new_from_cluster] returns a context for that cluster with
    the registry's URL, DEX program id and group id, and the group name
    of the original; its program id is the registry's unless the group
    id is the old 3-token group, for which it is the old program id. *)
Theorem new_from_cluster_follows_registry
    (K : Ids.Constants) (self : Context) (C url : string)
    (e : Ids.ClusterEntry) (g : Ids.GroupEntry) :
  Ids.cluster_urls K !! C = Some url ->
  Ids.clusters K !! C = Some e ->
  dict_get (group_name self) (Ids.mango_groups e) = Some g ->
  exists ctx,
    new_from_cluster K self C = Return ctx
    /\ cluster ctx = C
    /\ cluster_url ctx = url
    /\ dex_program_id ctx = mkPublicKey (Ids.dex_program_id e)
    /\ group_id ctx = mkPublicKey (Ids.mango_group_pk g)
    /\ group_name ctx = group_name self
    /\ (group_id ctx <> _OLD_3_TOKEN_GROUP_ID ->
        program_id ctx = mkPublicKey (Ids.mango_program_id e))
    /\ (group_id ctx = _OLD_3_TOKEN_GROUP_ID ->
        program_id ctx = _OLD_3_TOKEN_PROGRAM_ID).
Proof.
  intros Hurl He Hg. eexists. split.
  - unfold new_from_cluster, Ids.group_pk_of, Ids.cluster_url_of, Ids.cluster_entry, getitem.
    rewrite Hurl, He. simpl. rewrite Hg. reflexivity.
  - repeat split; simpl.
    + intros Hne. by rewrite bool_decide_eq_false_2.
    + intros Heq. by rewrite bool_decide_eq_true_2.
Qed.

(** [new_from_cluster] reads only the group name of the context it is
    called on. *)
Lemma new_from_cluster_reads_group_name (K : Ids.Constants) (self self' : Context) C :
  group_name self = group_name self' ->
  new_from_cluster K self C = new_from_cluster K self' C.
Proof. unfold new_from_cluster. by intros ->. Qed.

(** C8 as stated fails on the group the module defaults to: in the
    registry below the mainnet group BTC_ETH_USDT is the old 3-token
    group, and the context [new_from_cluster] returns for mainnet has
    the old program id, not the registry's. *)
Lemma new_from_cluster_legacy_counterexample :
  Ids.mango_program_id <$> Ids.cluster_entry example_constants "mainnet-beta"
  = Return "5fNfvyp5czQVX77yoACa3JJVEhdRaWjPuazuWgjhTqEH"%string
  /\ program_id <$> new_from_cluster example_constants example_devnet_context "mainnet-beta"
     = Return (Key (mkPublicKey "JD3bq9hGdy38PuWQ4h2YJpELmHVGPPfFSuFkpzAd9zfu"))
  /\ ~ (forall ctx,
          new_from_cluster example_constants example_devnet_context "mainnet-beta"
          = Return ctx ->
          Return (id_str (program_id ctx))
          = Ids.mango_program_id <$> Ids.cluster_entry example_constants "mainnet-beta").
Proof.
  split; [by vm_compute|]. split; [by vm_compute|].
  intros H.
  specialize (H _ eq_refl). vm_compute in H. discriminate.
Qed.

(** ** wait_for_confirmation *)

Lemma run_bind_eq {A B : Type} (m : run A) (f : A -> run B) :
  m ≫= f
  = match m.2 with
    | Return a => (m.1 ++ (f a).1, (f a).2)
    | Raise e => (m.1, Raise e)
    end.
Proof.
  destruct m as [tr [a|e]]; simpl; [|done]. by destruct (f a).
Qed.

Lemma emit_then_eq {B : Type} (e : event) (k : run B) :
  (emit e ;; k) = (e :: k.1, k.2).
Proof. rewrite run_bind_eq. reflexivity. Qed.

Section confirmation.

Variable D : Defaults.
Variable node : Node.
Variable transaction_id : string.

#[local] Abbreviation c := (client (default_context D)).
#[local] Abbreviation answer i := (dict_get "result" (node c transaction_id i)).

Lemma confirmation_loop_cons (w : Z) (waits : list Z) (wait : option Z) :
  confirmation_loop D node transaction_id (w :: waits) wait
  = match answer (Z.to_nat w) with
    | None =>
        ([Sleep 1; GetConfirmedTransaction c transaction_id], Raise (KeyError "result"))
    | Some result =>
        let rest :=
          if is_None result
          then confirmation_loop D node transaction_id waits (Some w)
          else ([LogInfo [Lit "Confirmed after "; Interp (VInt w); Lit " seconds."]],
                Return (inl result)) in
        (Sleep 1 :: GetConfirmedTransaction c transaction_id :: rest.1, rest.2)
    end.
Proof.
  cbn [confirmation_loop]. rewrite !emit_then_eq. rewrite run_bind_eq.
  unfold lift, getitem. cbn [fst snd].
  destruct (answer (Z.to_nat w)) as [result|] eqn:Hres; [|done].
  cbn [fst snd app]. destruct (is_None result); [done|].
  reflexivity.
Qed.

Lemma loop_all_null (n a : nat) (wait : option Z) :
  (forall i, (a <= i < a + n)%nat -> answer i = Some VNone) ->
  confirmation_loop D node transaction_id (Z.of_nat <$> seq a n) wait
  = (poll_events c transaction_id n,
     Return (inr match n with
                 | O => wait
                 | S n' => Some (Z.of_nat (a + n'))
                 end)).
Proof.
  revert a wait. induction n as [|n IH]; intros a wait Hnull; [done|].
  cbn [seq fmap list_fmap]. rewrite confirmation_loop_cons, Nat2Z.id.
  rewrite Hnull by lia. cbn [is_None].
  change (list_fmap nat Z Z.of_nat (seq (S a) n)) with (Z.of_nat <$> seq (S a) n).
  rewrite IH by (intros; apply Hnull; lia). cbn [fst snd].
  f_equal. f_equal. f_equal. destruct n; f_equal; lia.
Qed.

Lemma loop_first_non_null (k n a : nat) (wait : option Z) (result : value) :
  (forall i, (a <= i < a + k)%nat -> answer i = Some VNone) ->
  answer (a + k)%nat = Some result ->
  is_None result = false ->
  (k < n)%nat ->
  confirmation_loop D node transaction_id (Z.of_nat <$> seq a n) wait
  = (poll_events c transaction_id (S k)
       ++ [LogInfo [Lit "Confirmed after "; Interp (VInt (Z.of_nat (a + k)));
                    Lit " seconds."]],
     Return (inl result)).
Proof.
  revert n a wait. induction k as [|k IH]; intros n a wait Hnull Hres Hsome Hlt.
  - destruct n as [|n]; [lia|]. cbn [seq fmap list_fmap].
    rewrite confirmation_loop_cons, Nat2Z.id. rewrite Nat.add_0_r in Hres.
    rewrite Hres, Hsome. cbn. by rewrite Nat.add_0_r.
  - destruct n as [|n]; [lia|]. cbn [seq fmap list_fmap].
    rewrite confirmation_loop_cons, Nat2Z.id. rewrite Hnull by lia. cbn [is_None].
    change (list_fmap nat Z Z.of_nat (seq (S a) n)) with (Z.of_nat <$> seq (S a) n).
    rewrite (IH n (S a) (Some (Z.of_nat a)) ) by
      (try (intros; apply Hnull; lia); try lia; try done;
       by replace (S a + k)%nat with (a + S k)%nat by lia).
    cbn [fst snd]. replace (S a + k)%nat with (a + S k)%nat by lia. reflexivity.
Qed.

Lemma wait_for_confirmation_eq (self : Context) (max_wait_in_seconds : Z) :
  wait_for_confirmation D node self transaction_id max_wait_in_seconds
  = let started :=
      LogInfo [Lit "Waiting up to "; Interp (VInt max_wait_in_seconds);
               Lit " seconds for "; Interp (VStr transaction_id); Lit "."] in
    let loop :=
      confirmation_loop D node transaction_id (range0 max_wait_in_seconds) None in
    match loop.2 with
    | Return (inl result) => (started :: loop.1, Return result)
    | Return (inr None) => (started :: loop.1, Raise (UnboundLocalError "wait"))
    | Return (inr (Some wait)) =>
        (started :: loop.1
           ++ [LogInfo [Lit "Timed out after "; Interp (VInt wait);
                        Lit " seconds waiting on transaction ";
                        Interp (VStr transaction_id); Lit "."]],
         Return VNone)
    | Raise e => (started :: loop.1, Raise e)
    end.
Proof.
  unfold wait_for_confirmation. rewrite emit_then_eq, run_bind_eq. cbv zeta.
  destruct (confirmation_loop D node transaction_id (range0 max_wait_in_seconds) None)
    as [tr [[result|[wait|]]|e]]; cbn [fst snd]; try done.
  all: simpl; by rewrite app_nil_r.
Qed.

(** With a node that never has the transaction and a positive wait:
    that many rounds of a one-second sleep followed by a poll, then
    [None]. *)
Lemma wait_always_null (self : Context) (max_wait_in_seconds : Z) :
  0 < max_wait_in_seconds ->
  (forall i, answer i = Some VNone) ->
  wait_for_confirmation D node self transaction_id max_wait_in_seconds
  = (LogInfo [Lit "Waiting up to "; Interp (VInt max_wait_in_seconds);
              Lit " seconds for "; Interp (VStr transaction_id); Lit "."]
       :: poll_events c transaction_id (Z.to_nat max_wait_in_seconds)
       ++ [LogInfo [Lit "Timed out after "; Interp (VInt (max_wait_in_seconds - 1));
                    Lit " seconds waiting on transaction ";
                    Interp (VStr transaction_id); Lit "."]],
     Return VNone).
Proof.
  intros Hmax Hnull. rewrite wait_for_confirmation_eq. cbv zeta. unfold range0.
  rewrite loop_all_null by auto. cbn [fst snd].
  destruct (Z.to_nat max_wait_in_seconds) as [|n'] eqn:Hn; [lia|].
  by replace (Z.of_nat (0 + n')) with (max_wait_in_seconds - 1) by lia.
Qed.

(** With a node that first has the transaction at the poll of index
    [k], within the wait: [k + 1] rounds, then the result of that
    poll. *)
Lemma wait_first_non_null (self : Context) (max_wait_in_seconds : Z) (k : nat)
    (result : value) :
  (forall i, (i < k)%nat -> answer i = Some VNone) ->
  answer k = Some result ->
  result <> VNone ->
  Z.of_nat k < max_wait_in_seconds ->
  wait_for_confirmation D node self transaction_id max_wait_in_seconds
  = (LogInfo [Lit "Waiting up to "; Interp (VInt max_wait_in_seconds);
              Lit " seconds for "; Interp (VStr transaction_id); Lit "."]
       :: poll_events c transaction_id (S k)
       ++ [LogInfo [Lit "Confirmed after "; Interp (VInt (Z.of_nat k)); Lit " seconds."]],
     Return result).
Proof.
  intros Hnull Hres Hsome Hlt. rewrite wait_for_confirmation_eq. cbv zeta. unfold range0.
  rewrite (loop_first_non_null k _ 0 None result); try done.
  - intros i Hi. apply Hnull. lia.
  - by destruct result.
  - lia.
Qed.

(** A poll that lacks the ["result"] field stops the wait with a
    [KeyError]. *)
Lemma wait_missing_result (self : Context) (max_wait_in_seconds : Z) :
  0 < max_wait_in_seconds ->
  answer 0%nat = None ->
  (wait_for_confirmation D node self transaction_id max_wait_in_seconds).2
  = Raise (KeyError "result").
Proof.
  intros Hmax Hres. rewrite wait_for_confirmation_eq. cbv zeta. unfold range0.
  destruct (Z.to_nat max_wait_in_seconds) as [|n] eqn:Hn; [lia|].
  cbn [seq fmap list_fmap]. rewrite confirmation_loop_cons, Nat2Z.id.
  by rewrite Hres.
Qed.

(** The loop polls through the client of [default_context] only. *)
Lemma loop_polls_default_client (waits : list Z) (wait : option Z) :
  Forall (fun e => forall c' t, e = GetConfirmedTransaction c' t -> c' = c)
         (confirmation_loop D node transaction_id waits wait).1.
Proof.
  revert wait. induction waits as [|w waits IH]; intros wait; [by constructor|].
  rewrite confirmation_loop_cons.
  destruct (answer (Z.to_nat w)) as [result|].
  - cbv zeta. cbn [fst]. constructor; [done|]. constructor; [by intros ? ? [= <- _]|].
    destruct (is_None result); [apply IH|]. cbn. by constructor.
  - cbn [fst]. constructor; [done|]. constructor; [by intros ? ? [= <- _]|]. constructor.
Qed.

(** A loop with a round to run starts with a sleep of one second and a
    poll through the client of [default_context]. *)
Lemma loop_first_poll (w : Z) (waits : list Z) (wait : option Z) :
  exists rest,
    (confirmation_loop D node transaction_id (w :: waits) wait).1
    = Sleep 1 :: GetConfirmedTransaction c transaction_id :: rest.
Proof.
  rewrite confirmation_loop_cons.
  destruct (answer (Z.to_nat w)) as [result|]; eexists; reflexivity.
Qed.

End confirmation.

Lemma loop_depends_on_default_client (D : Defaults) (node node' : Node)
    (transaction_id : string) (waits : list Z) (wait : option Z) :
  (forall t i, node' (client (default_context D)) t i
               = node (client (default_context D)) t i) ->
  confirmation_loop D node' transaction_id waits wait
  = confirmation_loop D node transaction_id waits wait.
Proof.
  intros Hsame. revert wait. induction waits as [|w waits IH]; intros wait; [done|].
  rewrite !confirmation_loop_cons, Hsame.
  destruct (dict_get _ _) as [result|]; [|done]. by rewrite IH.
Qed.

(** C4: with [max_wait_in_seconds = 0] the loop body never runs, the
    closing log line reads the loop variable [wait] that was never
    bound, and an [UnboundLocalError] escapes after no poll at all,
    where the specification asks for [None]. *)
Theorem wait_for_confirmation_zero_raises
    (D : Defaults) (node : Node) (self : Context) (transaction_id : string) :
  wait_for_confirmation D node self transaction_id 0
  = ([LogInfo [Lit "Waiting up to "; Interp (VInt 0); Lit " seconds for ";
               Interp (VStr transaction_id); Lit "."]],
     Raise (UnboundLocalError "wait")).
Proof. reflexivity. Qed.

Lemma wait_for_confirmation_nonpositive_raises
    (D : Defaults) (node : Node) (self : Context) (transaction_id : string)
    (max_wait_in_seconds : Z) :
  max_wait_in_seconds <= 0 ->
  (wait_for_confirmation D node self transaction_id max_wait_in_seconds).2
  = Raise (UnboundLocalError "wait").
Proof.
  intros Hmax. unfold wait_for_confirmation, range0.
  replace (Z.to_nat max_wait_in_seconds) with 0%nat by lia. reflexivity.
Qed.

(** C10: [wait_for_confirmation] polls through the client of the
    module-level [default_context], not through the client of the
    context it is called on. With a positive wait it sleeps a second
    and sends [get_confirmed_transaction] for the transaction to the
    client of [default_context]; every poll it sends goes to that
    client, so none goes to the client of [self] when that is another
    one. The answers that client gets decide the run: the first
    non-null result within the wait is returned after that many rounds
    of sleep and poll, and null results throughout give [None] after
    [max_wait_in_seconds] rounds. What the node answers to any other
    client does not change the run, and neither does the context the
    method is called on, whatever its cluster URL or cluster. *)
Theorem wait_for_confirmation_polls_default_context
    (D : Defaults) (node : Node) (self : Context) (transaction_id : string)
    (max_wait_in_seconds : Z) :
  let c := client (default_context D) in
  let answer i := dict_get "result" (node c transaction_id i) in
  let started :=
    LogInfo [Lit "Waiting up to "; Interp (VInt max_wait_in_seconds);
             Lit " seconds for "; Interp (VStr transaction_id); Lit "."] in
  let ran := wait_for_confirmation D node self transaction_id max_wait_in_seconds in
  (0 < max_wait_in_seconds ->
   exists rest,
     ran.1 = started :: Sleep 1 :: GetConfirmedTransaction c transaction_id :: rest)
  /\ (forall c' t, GetConfirmedTransaction c' t ∈ ran.1 -> c' = c)
  /\ (client self <> c ->
      forall t, GetConfirmedTransaction (client self) t ∉ ran.1)
  /\ (forall (k : nat) (result : value),
      (forall i, (i < k)%nat -> answer i = Some VNone) ->
      answer k = Some result ->
      result <> VNone ->
      Z.of_nat k < max_wait_in_seconds ->
      ran = (started :: poll_events c transaction_id (S k)
               ++ [LogInfo [Lit "Confirmed after "; Interp (VInt (Z.of_nat k));
                            Lit " seconds."]],
             Return result))
  /\ (0 < max_wait_in_seconds ->
      (forall i, (i < Z.to_nat max_wait_in_seconds)%nat -> answer i = Some VNone) ->
      ran = (started :: poll_events c transaction_id (Z.to_nat max_wait_in_seconds)
               ++ [LogInfo [Lit "Timed out after "; Interp (VInt (max_wait_in_seconds - 1));
                            Lit " seconds waiting on transaction ";
                            Interp (VStr transaction_id); Lit "."]],
             Return VNone))
  /\ (forall node' : Node,
      (forall t i, node' c t i = node c t i) ->
      wait_for_confirmation D node' self transaction_id max_wait_in_seconds = ran)
  /\ (forall self' : Context,
      wait_for_confirmation D node self' transaction_id max_wait_in_seconds = ran).
Proof.
  intros c answer started ran.
  assert (Hpolls : forall c' t, GetConfirmedTransaction c' t ∈ ran.1 -> c' = c).
  { intros c' t Hin.
    pose proof (loop_polls_default_client D node transaction_id
                  (range0 max_wait_in_seconds) None) as Hloop.
    rewrite Forall_forall in Hloop.
    unfold ran in Hin. rewrite wait_for_confirmation_eq in Hin. cbv zeta in Hin.
    destruct (confirmation_loop D node transaction_id (range0 max_wait_in_seconds) None)
      as [tr [[result|[wait|]]|e]]; cbn [fst snd] in *;
      repeat (apply elem_of_cons in Hin as [Hin|Hin]; [discriminate|]);
      try (apply elem_of_app in Hin as [Hin|Hin]);
      try (by eapply Hloop);
      by apply list_elem_of_singleton in Hin. }
  split; [|split; [|split; [|split; [|split; [|split]]]]].
  - intros Hmax. unfold ran. rewrite wait_for_confirmation_eq. cbv zeta. unfold range0.
    destruct (Z.to_nat max_wait_in_seconds) as [|n] eqn:Hn; [lia|].
    cbn [seq fmap list_fmap].
    destruct (loop_first_poll D node transaction_id (Z.of_nat 0)
                (list_fmap nat Z Z.of_nat (seq 1 n)) None) as [rest Hrest].
    destruct (confirmation_loop D node transaction_id _ None)
      as [tr [[result|[wait|]]|e]]; cbn [fst snd] in *; subst tr; eexists; reflexivity.
  - exact Hpolls.
  - intros Hother t Hin. by apply Hother, (Hpolls _ t).
  - intros k result Hnull Hres Hsome Hlt.
    by apply (wait_first_non_null D node transaction_id self max_wait_in_seconds k result).
  - intros Hmax Hnull. unfold ran. rewrite wait_for_confirmation_eq. cbv zeta.
    unfold range0. rewrite loop_all_null by (intros i Hi; apply Hnull; lia).
    cbn [fst snd].
    destruct (Z.to_nat max_wait_in_seconds) as [|n'] eqn:Hn; [lia|].
    by replace (Z.of_nat (0 + n')) with (max_wait_in_seconds - 1) by lia.
  - intros node' Hsame. unfold ran. rewrite !wait_for_confirmation_eq. cbv zeta.
    by rewrite (loop_depends_on_default_client D node node').
  - reflexivity.
Qed.

(** ** Loops *)

Lemma first_return_app {A R : Type} (body : A -> option R) (xs ys : list A) :
  first_return body (xs ++ ys)
  = match first_return body xs with
    | Some r => Some r
    | None => first_return body ys
    end.
Proof. induction xs as [|x xs IH]; simpl; [done|]. by destruct (body x). Qed.

Lemma first_return_fmap_list {A B R : Type} (f : A -> B) (body : B -> option R)
    (xs : list A) :
  first_return body (f <$> xs) = first_return (fun x => body (f x)) xs.
Proof. induction xs as [|x xs IH]; simpl; [done|]. by destruct (body (f x)). Qed.

Lemma first_return_fmap {A R R' : Type} (f : R -> R') (body : A -> option R)
    (xs : list A) :
  first_return (fun x => f <$> body x) xs = f <$> first_return body xs.
Proof. induction xs as [|x xs IH]; simpl; [done|]. by destruct (body x). Qed.

Lemma first_return_ext {A R : Type} (body body' : A -> option R) (xs : list A) :
  (forall x, body x = body' x) -> first_return body xs = first_return body' xs.
Proof. intros Hext. induction xs as [|x xs IH]; simpl; [done|]. by rewrite Hext, IH. Qed.

Lemma first_return_None {A R : Type} (body : A -> option R) (xs : list A) :
  (forall x, x ∈ xs -> body x = None) -> first_return body xs = None.
Proof.
  induction xs as [|x xs IH]; intros Hnone; simpl; [done|].
  rewrite Hnone by apply list_elem_of_here. apply IH. intros y Hy.
  apply Hnone. by apply list_elem_of_further.
Qed.

Lemma first_return_Some_inv {A R : Type} (body : A -> option R) (xs : list A) (r : R) :
  first_return body xs = Some r -> exists x, x ∈ xs /\ body x = Some r.
Proof.
  induction xs as [|x xs IH]; simpl; [done|].
  destruct (body x) as [r'|] eqn:Hx.
  - intros [= <-]. exists x. split; [apply list_elem_of_here|done].
  - intros H. destruct (IH H) as (y & Hy & Hby). exists y.
    split; [by apply list_elem_of_further|done].
Qed.

Lemma for_each_app {A S : Type} (body : A -> S -> outcome S) (xs ys : list A) (s : S) :
  for_each body (xs ++ ys) s = for_each body xs s ≫= for_each body ys.
Proof.
  revert s. induction xs as [|x xs IH]; intros s; simpl; [done|].
  destruct (body x s) as [s'|e]; simpl; [apply IH|done].
Qed.

(** ** find_by_symbol and find_by_address *)

(** Comparing upper-cased names ignores the case of ASCII letters. *)
Lemma upper_ascii_idem (c : ascii) : upper_ascii (upper_ascii c) = upper_ascii c.
Proof. by destruct c as [[] [] [] [] [] [] [] []]. Qed.

Lemma upper_idem (s : string) : upper (upper s) = upper s.
Proof. induction s as [|c s IH]; simpl; [done|]. by rewrite upper_ascii_idem, IH. Qed.

Example upper_btc_usdc : upper "btc/Usdc" = "BTC/USDC"%string.
Proof. reflexivity. Qed.

Section find.

Variable str_upper : string -> string.
Variable K : Ids.Constants.
Variable self : IdsJsonMarketLookup.

Lemma lookup_exit_body (matches : Ids.MarketData -> bool) (group : Ids.Group)
    (market_type : IdsJsonMarketType) (market_data : Ids.MarketData) :
  (fun found : Ids.Group * (IdsJsonMarketType * Ids.MarketData) =>
     Some <$> construct found.1 found.2)
  <$> (if matches (market_type, market_data).2
       then Some (group, (market_type, market_data)) else None)
  = if matches market_data then
      Some (Some <$> _from_dict market_type (mkPublicKey (Ids.group_publicKey group))
                        market_data (_load_tokens (Ids.group_tokens group))
                        (Ids.group_quoteSymbol group))
    else None.
Proof. simpl. by destruct (matches market_data). Qed.

(** The exit the nested loops of a lookup take. *)
Lemma lookup_exit_eq (matches : Ids.MarketData -> bool) (group : Ids.Group) :
  match
    first_return (fun market_data =>
      if matches market_data then
        Some (Some <$> _from_dict PERP (mkPublicKey (Ids.group_publicKey group)) market_data
                          (_load_tokens (Ids.group_tokens group))
                          (Ids.group_quoteSymbol group))
      else None) (Ids.group_perpMarkets group)
  with
  | Some r => Some r
  | None =>
      first_return (fun market_data =>
        if matches market_data then
          Some (Some <$> _from_dict SPOT (mkPublicKey (Ids.group_publicKey group)) market_data
                            (_load_tokens (Ids.group_tokens group))
                            (Ids.group_quoteSymbol group))
        else None) (Ids.group_spotMarkets group)
  end
  = (fun found : Ids.Group * (IdsJsonMarketType * Ids.MarketData) =>
       Some <$> construct found.1 found.2)
    <$> first_return (fun entry => if matches entry.2 then Some (group, entry) else None)
                     (entries group).
Proof.
  rewrite <- first_return_fmap. unfold entries.
  rewrite first_return_app, !first_return_fmap_list.
  rewrite (first_return_ext _ _ (Ids.group_perpMarkets group)
             (fun md => eq_sym (lookup_exit_body matches group PERP md))).
  by rewrite (first_return_ext _ _ (Ids.group_spotMarkets group)
                (fun md => eq_sym (lookup_exit_body matches group SPOT md))).
Qed.

Lemma find_by_symbol_eq (symbol : string) :
  find_by_symbol str_upper K self symbol
  = match first_match K (lookup_cluster self)
            (fun market_data =>
               bool_decide (str_upper (Ids.md_name market_data) = str_upper symbol))
    with
    | Some found => Some <$> construct found.1 found.2
    | None => Return None
    end.
Proof.
  unfold find_by_symbol, first_match. cbv zeta.
  rewrite (first_return_ext _ (fun group =>
    (fun found : Ids.Group * (IdsJsonMarketType * Ids.MarketData) =>
       Some <$> construct found.1 found.2)
    <$> (if bool_decide (Ids.group_cluster group = lookup_cluster self) then
           first_return (fun entry =>
             if bool_decide (str_upper (Ids.md_name entry.2) = str_upper symbol)
             then Some (group, entry) else None) (entries group)
         else None))).
  - rewrite first_return_fmap. by destruct (first_return _ _).
  - intros group. case_bool_decide; [|done].
    apply (lookup_exit_eq
             (fun market_data =>
                bool_decide (str_upper (Ids.md_name market_data) = str_upper symbol))).
Qed.

Lemma find_by_address_eq (address : PublicKey) :
  find_by_address K self address
  = match first_match K (lookup_cluster self)
            (fun market_data => bool_decide (Ids.md_key market_data = b58 address))
    with
    | Some found => Some <$> construct found.1 found.2
    | None => Return None
    end.
Proof.
  unfold find_by_address, first_match. cbv zeta.
  rewrite (first_return_ext _ (fun group =>
    (fun found : Ids.Group * (IdsJsonMarketType * Ids.MarketData) =>
       Some <$> construct found.1 found.2)
    <$> (if bool_decide (Ids.group_cluster group = lookup_cluster self) then
           first_return (fun entry =>
             if bool_decide (Ids.md_key entry.2 = b58 address)
             then Some (group, entry) else None) (entries group)
         else None))).
  - rewrite first_return_fmap. by destruct (first_return _ _).
  - intros group. case_bool_decide; [|done].
    apply (lookup_exit_eq
             (fun market_data => bool_decide (Ids.md_key market_data = b58 address))).
Qed.

Lemma first_match_None (matches : Ids.MarketData -> bool) :
  (forall g, g ∈ Ids.groups K -> Ids.group_cluster g = lookup_cluster self ->
     forall e, e ∈ entries g -> matches e.2 = false) ->
  first_match K (lookup_cluster self) matches = None.
Proof.
  intros Hnone. apply first_return_None. intros g Hg.
  case_bool_decide as Hc; [|done].
  apply first_return_None. intros e He. by rewrite (Hnone g Hg Hc e He).
Qed.

Lemma first_match_first (matches : Ids.MarketData -> bool) gs1 g gs2 es1 e es2 :
  Ids.groups K = gs1 ++ g :: gs2 ->
  Ids.group_cluster g = lookup_cluster self ->
  entries g = es1 ++ e :: es2 ->
  (forall g', g' ∈ gs1 -> Ids.group_cluster g' = lookup_cluster self ->
     forall e', e' ∈ entries g' -> matches e'.2 = false) ->
  (forall e', e' ∈ es1 -> matches e'.2 = false) ->
  matches e.2 = true ->
  first_match K (lookup_cluster self) matches = Some (g, e).
Proof.
  intros HK Hc He Hgs Hes Hm. unfold first_match. rewrite HK, first_return_app.
  rewrite first_return_None.
  - simpl. rewrite (bool_decide_eq_true_2 _ Hc), He, first_return_app.
    rewrite first_return_None.
    + simpl. by rewrite Hm.
    + intros e' He'. by rewrite (Hes e' He').
  - intros g' Hg'. case_bool_decide as Hc'; [|done].
    apply first_return_None. intros e' He'. by rewrite (Hgs g' Hg' Hc' e' He').
Qed.

Lemma first_match_Some_inv (matches : Ids.MarketData -> bool) g e :
  first_match K (lookup_cluster self) matches = Some (g, e) ->
  g ∈ Ids.groups K /\ Ids.group_cluster g = lookup_cluster self
  /\ e ∈ entries g /\ matches e.2 = true.
Proof.
  intros H. apply first_return_Some_inv in H as (g' & Hg' & H).
  case_bool_decide as Hc; [|done].
  apply first_return_Some_inv in H as (e' & He' & H).
  destruct (matches e'.2) eqn:Hm; [|done]. by injection H as -> ->.
Qed.

End find.

(** What a lookup gives once its first matching entry is known: the
    market built from it, or the exception building it raises. *)
Lemma lookup_result_of_construct (r : outcome (option Market)) g e :
  r = Some <$> construct g e ->
  (forall m, construct g e = Return m -> r = Return (Some m))
  /\ (forall err, construct g e = Raise err -> r = Raise err).
Proof. intros ->. split; by intros ? ->. Qed.

(** C9, as the code has it: when no entry of the active cluster's
    groups matches, [find_by_symbol] and [find_by_address] return [None]
    and raise nothing. Otherwise the first matching entry in scan order
    decides: [find_by_symbol] takes the first entry whose name equals the
    symbol once [str.upper] is applied to both (whatever [str.upper]
    does to text), [find_by_address] the first entry whose key is the
    text of the address; the lookup returns the market built from that
    entry when [_from_dict] can build it, and raises the exception of
    [_from_dict] when it cannot. A market either lookup returns comes
    from a matching entry. *)
Theorem find_by_symbol_and_address (str_upper : string -> string) (K : Ids.Constants)
    (self : IdsJsonMarketLookup) :
  let active g := Ids.group_cluster g = lookup_cluster self in
  (forall symbol,
     (forall g, g ∈ Ids.groups K -> active g ->
        forall e, e ∈ entries g -> str_upper (Ids.md_name e.2) <> str_upper symbol) ->
     find_by_symbol str_upper K self symbol = Return None)
  /\ (forall address,
      (forall g, g ∈ Ids.groups K -> active g ->
         forall e, e ∈ entries g -> Ids.md_key e.2 <> b58 address) ->
      find_by_address K self address = Return None)
  /\ (forall symbol gs1 g gs2 es1 e es2,
      Ids.groups K = gs1 ++ g :: gs2 -> active g -> entries g = es1 ++ e :: es2 ->
      (forall g', g' ∈ gs1 -> active g' ->
         forall e', e' ∈ entries g' -> str_upper (Ids.md_name e'.2) <> str_upper symbol) ->
      (forall e', e' ∈ es1 -> str_upper (Ids.md_name e'.2) <> str_upper symbol) ->
      str_upper (Ids.md_name e.2) = str_upper symbol ->
      (forall m, construct g e = Return m ->
         find_by_symbol str_upper K self symbol = Return (Some m))
      /\ (forall err, construct g e = Raise err ->
          find_by_symbol str_upper K self symbol = Raise err))
  /\ (forall address gs1 g gs2 es1 e es2,
      Ids.groups K = gs1 ++ g :: gs2 -> active g -> entries g = es1 ++ e :: es2 ->
      (forall g', g' ∈ gs1 -> active g' ->
         forall e', e' ∈ entries g' -> Ids.md_key e'.2 <> b58 address) ->
      (forall e', e' ∈ es1 -> Ids.md_key e'.2 <> b58 address) ->
      Ids.md_key e.2 = b58 address ->
      (forall m, construct g e = Return m ->
         find_by_address K self address = Return (Some m))
      /\ (forall err, construct g e = Raise err ->
          find_by_address K self address = Raise err))
  /\ (forall symbol m,
      find_by_symbol str_upper K self symbol = Return (Some m) ->
      exists g e, g ∈ Ids.groups K /\ active g /\ e ∈ entries g
                  /\ str_upper (Ids.md_name e.2) = str_upper symbol
                  /\ construct g e = Return m)
  /\ (forall address m,
      find_by_address K self address = Return (Some m) ->
      exists g e, g ∈ Ids.groups K /\ active g /\ e ∈ entries g
                  /\ Ids.md_key e.2 = b58 address
                  /\ construct g e = Return m).
Proof.
  intros active. subst active. split; [|split; [|split; [|split; [|split]]]].
  - intros symbol Hnone. rewrite find_by_symbol_eq, first_match_None; [done|].
    intros g Hg Hc e He. by apply bool_decide_eq_false_2, (Hnone g Hg Hc e He).
  - intros address Hnone. rewrite find_by_address_eq, first_match_None; [done|].
    intros g Hg Hc e He. by apply bool_decide_eq_false_2, (Hnone g Hg Hc e He).
  - intros symbol gs1 g gs2 es1 e es2 HK Hc He Hgs Hes Hm.
    apply lookup_result_of_construct.
    rewrite find_by_symbol_eq,
      (first_match_first K self _ gs1 g gs2 es1 e es2 HK Hc He); [done| | |].
    + intros g' Hg' Hc' e' He'. by apply bool_decide_eq_false_2, (Hgs g' Hg' Hc' e' He').
    + intros e' He'. by apply bool_decide_eq_false_2, Hes.
    + by apply bool_decide_eq_true_2.
  - intros address gs1 g gs2 es1 e es2 HK Hc He Hgs Hes Hm.
    apply lookup_result_of_construct.
    rewrite find_by_address_eq,
      (first_match_first K self _ gs1 g gs2 es1 e es2 HK Hc He); [done| | |].
    + intros g' Hg' Hc' e' He'. by apply bool_decide_eq_false_2, (Hgs g' Hg' Hc' e' He').
    + intros e' He'. by apply bool_decide_eq_false_2, Hes.
    + by apply bool_decide_eq_true_2.
  - intros symbol m H. rewrite find_by_symbol_eq in H.
    destruct (first_match _ _ _) as [[g e]|] eqn:Hfm; [|done].
    apply first_match_Some_inv in Hfm as (Hg & Hc & He & Hm).
    apply bool_decide_eq_true_1 in Hm. exists g, e. repeat split; try done.
    simpl in H. by destruct (construct g e) as [m'|]; [injection H as ->|].
  - intros address m H. rewrite find_by_address_eq in H.
    destruct (first_match _ _ _) as [[g e]|] eqn:Hfm; [|done].
    apply first_match_Some_inv in Hfm as (Hg & Hc & He & Hm).
    apply bool_decide_eq_true_1 in Hm. exists g, e. repeat split; try done.
    simpl in H. by destruct (construct g e) as [m'|]; [injection H as ->|].
Qed.

(** C9 as stated fails on an entry that cannot be built: the devnet
    group below lists the tokens USDC, BTC, ETH, so its entry ETH/USDC
    matches the symbol ETH/USDC (in either case) and the address
    spot-eth, yet both lookups raise the exception of [_from_dict]
    where the market of that entry was to be returned. *)
Lemma find_by_symbol_unbuildable_counterexample :
  let self := mkIdsJsonMarketLookup "devnet" in
  let eth_usdc :=
    Ids.mkMarketData "ETH/USDC" "spot-eth" "6MNPzJbwYrnBvnhdLKNXPqWfnVh3KqGtj3vSbUvSd3dH"
      "ETH" in
  devnet_group ∈ Ids.groups example_constants
  /\ Ids.group_cluster devnet_group = lookup_cluster self
  /\ (SPOT, eth_usdc) ∈ entries devnet_group
  /\ find_by_symbol upper example_constants self "ETH/USDC"
     = Raise (could_not_find "ETH" "USDC")
  /\ find_by_symbol upper example_constants self "eth/usdc"
     = Raise (could_not_find "ETH" "USDC")
  /\ find_by_address example_constants self (mkPublicKey "spot-eth")
     = Raise (could_not_find "ETH" "USDC")
  /\ ~ (exists m, find_by_symbol upper example_constants self "ETH/USDC" = Return m).
Proof.
  intros self eth_usdc.
  split; [apply list_elem_of_here|]. split; [reflexivity|].
  split; [by do 2 apply list_elem_of_further; apply list_elem_of_here|].
  split; [by vm_compute|]. split; [by vm_compute|]. split; [by vm_compute|].
  intros [m H]. vm_compute in H. discriminate.
Qed.

(** ** all_markets *)

Section all_markets.

Variable K : Ids.Constants.
Variable self : IdsJsonMarketLookup.

Lemma all_markets_eq :
  all_markets K self = for_each (markets_after_group self) (Ids.groups K) [].
Proof. reflexivity. Qed.

(** A loop whose body assigns [markets = [market]] leaves the market of
    its last round, when every round builds one. *)
Lemma overwrite_loop (g : Ids.Group) (market_type : IdsJsonMarketType)
    (mds : list Ids.MarketData) (markets : list Market) :
  (forall md, md ∈ mds -> exists m, construct g (market_type, md) = Return m) ->
  for_each (fun market_data (_ : list Market) =>
              market ← construct g (market_type, market_data); mret [market]) mds markets
  = match last mds with
    | Some md => (fun m => [m]) <$> construct g (market_type, md)
    | None => Return markets
    end.
Proof.
  revert markets. induction mds as [|md mds IH]; intros markets Hall; [done|].
  cbn [for_each]. destruct (Hall md) as [m Hm]; [apply list_elem_of_here|].
  rewrite Hm. simpl. rewrite IH by (intros; apply Hall; by apply list_elem_of_further).
  rewrite last_cons. destruct (last mds); [done|]. by rewrite Hm.
Qed.

Lemma perp_entry (g : Ids.Group) (md : Ids.MarketData) :
  md ∈ Ids.group_perpMarkets g -> (PERP, md) ∈ entries g.
Proof.
  intros Hmd. apply elem_of_app. left.
  by apply (list_elem_of_fmap_2 (fun market_data => (PERP, market_data))).
Qed.

Lemma spot_entry (g : Ids.Group) (md : Ids.MarketData) :
  md ∈ Ids.group_spotMarkets g -> (SPOT, md) ∈ entries g.
Proof.
  intros Hmd. apply elem_of_app. right.
  by apply (list_elem_of_fmap_2 (fun market_data => (SPOT, market_data))).
Qed.

Lemma markets_after_active_group (g : Ids.Group) (markets : list Market) :
  Ids.group_cluster g = lookup_cluster self ->
  (forall e, e ∈ entries g -> exists m, construct g e = Return m) ->
  markets_after_group self g markets
  = match last (Ids.group_spotMarkets g), last (Ids.group_perpMarkets g) with
    | Some md, _ => (fun m => [m]) <$> construct g (SPOT, md)
    | None, Some md => (fun m => [m]) <$> construct g (PERP, md)
    | None, None => Return markets
    end.
Proof.
  intros Hc Hall. unfold markets_after_group. rewrite (bool_decide_eq_true_2 _ Hc).
  rewrite overwrite_loop by (intros; by apply Hall, perp_entry).
  destruct (last (Ids.group_perpMarkets g)) as [mdp|] eqn:Hp.
  - destruct (Hall (PERP, mdp)) as [mp Hmp].
    { apply perp_entry. apply last_Some in Hp as [l ->]. apply elem_of_app. right.
      apply list_elem_of_here. }
    rewrite Hmp. simpl. rewrite overwrite_loop by (intros; by apply Hall, spot_entry).
    by destruct (last (Ids.group_spotMarkets g)).
  - simpl. by rewrite overwrite_loop by (intros; by apply Hall, spot_entry).
Qed.

Lemma markets_after_groups_without_entries (gs : list Ids.Group) (markets : list Market) :
  (forall g, g ∈ gs -> Ids.group_cluster g = lookup_cluster self -> entries g = []) ->
  for_each (markets_after_group self) gs markets = Return markets.
Proof.
  induction gs as [|g gs IH]; intros Hempty; [done|]. cbn [for_each].
  assert (markets_after_group self g markets = Return markets) as ->.
  { unfold markets_after_group. case_bool_decide as Hc; [|done].
    pose proof (Hempty g (list_elem_of_here _ _) Hc) as He. unfold entries in He.
    apply app_eq_nil in He as [Hp Hs].
    apply fmap_nil_inv in Hp. apply fmap_nil_inv in Hs. by rewrite Hp, Hs. }
  simpl. apply IH. intros g' Hg'. apply Hempty. by apply list_elem_of_further.
Qed.

Lemma markets_after_groups_return (gs : list Ids.Group) (markets : list Market) :
  (forall g, g ∈ gs -> Ids.group_cluster g = lookup_cluster self ->
     forall e, e ∈ entries g -> exists m, construct g e = Return m) ->
  exists markets', for_each (markets_after_group self) gs markets = Return markets'.
Proof.
  revert markets. induction gs as [|g gs IH]; intros markets Hall; [by eexists|].
  cbn [for_each].
  assert (exists markets1, markets_after_group self g markets = Return markets1)
    as [markets1 ->].
  { destruct (decide (Ids.group_cluster g = lookup_cluster self)) as [Hc|Hc].
    - pose proof (Hall g (list_elem_of_here _ _) Hc) as Hg.
      rewrite (markets_after_active_group g markets Hc Hg).
      destruct (last (Ids.group_spotMarkets g)) as [mds|] eqn:Hs.
      + destruct (Hg (SPOT, mds)) as [m ->]; [|by eexists].
        apply spot_entry. apply last_Some in Hs as [l ->]. apply elem_of_app. right.
        apply list_elem_of_here.
      + destruct (last (Ids.group_perpMarkets g)) as [mdp|] eqn:Hp; [|by eexists].
        destruct (Hg (PERP, mdp)) as [m ->]; [|by eexists].
        apply perp_entry. apply last_Some in Hp as [l ->]. apply elem_of_app. right.
        apply list_elem_of_here.
    - unfold markets_after_group. rewrite (bool_decide_eq_false_2 _ Hc). by eexists. }
  simpl. apply IH. intros g' Hg'. apply Hall. by apply list_elem_of_further.
Qed.

(** Whatever the registry, the sequence returned holds one market at
    most. *)
Lemma overwrite_loop_at_most_one (g : Ids.Group) (market_type : IdsJsonMarketType)
    (mds : list Ids.MarketData) (markets markets' : list Market) :
  (length markets <= 1)%nat ->
  for_each (fun market_data (_ : list Market) =>
              market ← construct g (market_type, market_data); mret [market]) mds markets
  = Return markets' ->
  (length markets' <= 1)%nat.
Proof.
  revert markets. induction mds as [|md mds IH]; intros markets Hlen H.
  - by injection H as <-.
  - cbn [for_each] in H. destruct (construct g (market_type, md)) as [m|]; [|done].
    simpl in H. by apply (IH [m]).
Qed.

Lemma all_markets_at_most_one (markets : list Market) :
  all_markets K self = Return markets -> (length markets <= 1)%nat.
Proof.
  rewrite all_markets_eq. assert (length (@nil Market) <= 1)%nat as Hlen by (simpl; lia).
  revert Hlen. generalize (@nil Market) as acc.
  induction (Ids.groups K) as [|g gs IH]; intros acc Hlen H.
  - by injection H as <-.
  - cbn [for_each] in H. apply bind_Return_inv in H as (acc' & Hg & H).
    apply (IH acc'); [|done]. unfold markets_after_group in Hg.
    case_bool_decide; [|by injection Hg as <-].
    apply bind_Return_inv in Hg as (acc1 & Hp & Hs).
    eapply overwrite_loop_at_most_one; [|exact Hs].
    eapply overwrite_loop_at_most_one; [|exact Hp]. done.
Qed.

End all_markets.

(** C3, as the code has it: when every market entry of the active
    cluster's groups can be built, and [g] is the last group of the
    active cluster that has market entries, [all_markets] returns a
    sequence holding one market only, the one built last: from the last
    spot entry of [g] when [g] has spot markets, from its last perp
    entry otherwise. *)
Theorem all_markets_returns_last_built
    (K : Ids.Constants) (self : IdsJsonMarketLookup)
    (gs1 : list Ids.Group) (g : Ids.Group) (gs2 : list Ids.Group) :
  let active g := Ids.group_cluster g = lookup_cluster self in
  (forall g', g' ∈ Ids.groups K -> active g' ->
     forall e, e ∈ entries g' -> exists m, construct g' e = Return m) ->
  Ids.groups K = gs1 ++ g :: gs2 ->
  active g ->
  entries g <> [] ->
  (forall g', g' ∈ gs2 -> active g' -> entries g' = []) ->
  exists m,
    all_markets K self = Return [m]
    /\ match last (Ids.group_spotMarkets g) with
       | Some md => construct g (SPOT, md) = Return m
       | None =>
           exists md, last (Ids.group_perpMarkets g) = Some md
                      /\ construct g (PERP, md) = Return m
       end.
Proof.
  intros active Hall HK Hc Hne Hempty. subst active.
  assert (forall g', g' ∈ gs1 -> Ids.group_cluster g' = lookup_cluster self ->
            forall e, e ∈ entries g' -> exists m, construct g' e = Return m) as Hall1.
  { intros g' Hg'. apply Hall. rewrite HK. apply elem_of_app. by left. }
  assert (forall e, e ∈ entries g -> exists m, construct g e = Return m) as Hallg.
  { apply Hall; [|done]. rewrite HK. apply elem_of_app. right. apply list_elem_of_here. }
  destruct (markets_after_groups_return self gs1 [] Hall1) as [markets1 H1].
  rewrite all_markets_eq, HK, for_each_app, H1. simpl.
  rewrite (markets_after_active_group self g markets1 Hc Hallg).
  destruct (last (Ids.group_spotMarkets g)) as [mds|] eqn:Hs.
  - destruct (Hallg (SPOT, mds)) as [m Hm].
    { apply spot_entry. apply last_Some in Hs as [l ->]. apply elem_of_app. right.
      apply list_elem_of_here. }
    exists m. rewrite Hm. simpl. split; [|done].
    by apply markets_after_groups_without_entries.
  - destruct (last (Ids.group_perpMarkets g)) as [mdp|] eqn:Hp.
    + destruct (Hallg (PERP, mdp)) as [m Hm].
      { apply perp_entry. apply last_Some in Hp as [l ->]. apply elem_of_app. right.
        apply list_elem_of_here. }
      exists m. rewrite Hm. simpl. split; [|by exists mdp].
      by apply markets_after_groups_without_entries.
    + exfalso. apply Hne. unfold entries.
      apply last_None in Hs. apply last_None in Hp. by rewrite Hs, Hp.
Qed.

(** On the registry of two-token groups: three devnet markets, and
    [all_markets] returns the last one built alone. *)
Example all_markets_two_token :
  all_markets two_token_constants (mkIdsJsonMarketLookup "devnet")
  = Return [PerpsMarket (mkToken "ETH" "ETH" (mkPublicKey "MintETH") 6)
                        (mkToken "USDC" "USDC" (mkPublicKey "MintUSDC") 6)
                        (mkPublicKey "PerpETH")].
Proof. by vm_compute. Qed.

(** C3 as stated fails on a group that lists more than its two tokens:
    the devnet group below has market entries, its tokens are USDC, BTC
    and ETH, and building its ETH/USDC entry from the first two of them
    raises, so [all_markets] returns no sequence at all. *)
Lemma all_markets_raises_counterexample :
  (exists g, g ∈ Ids.groups example_constants /\ Ids.group_cluster g = "devnet"%string
             /\ entries g <> [])
  /\ all_markets example_constants (mkIdsJsonMarketLookup "devnet")
     = Raise (Exception [Lit "Could not find base ('"; Interp (VStr "ETH");
                         Lit "') or quote symbol ('"; Interp (VStr "USDC");
                         Lit "') in tokens."])
  /\ ~ (exists markets,
          all_markets example_constants (mkIdsJsonMarketLookup "devnet") = Return markets).
Proof.
  split; [|split].
  - eexists. split; [apply list_elem_of_here|]. split; [reflexivity|]. by vm_compute.
  - by vm_compute.
  - intros [markets H]. vm_compute in H. discriminate.
Qed.

(** ** The statements at work on the example registry *)


Lemma new_from_cluster_follows_registry_witness :
  exists ctx,
    new_from_cluster example_constants example_devnet_context "mainnet-beta" = Return ctx
    /\ cluster ctx = "mainnet-beta"%string
    /\ cluster_url ctx = "https://solana-api.projectserum.com"%string
    /\ dex_program_id ctx = mkPublicKey "9xQeWvG816bUx9EPjHmaT23yvVM2ZWbrrpZb9PusVFin"
    /\ group_id ctx = _OLD_3_TOKEN_GROUP_ID
    /\ group_name ctx = "BTC_ETH_USDT"%string
    /\ program_id ctx = _OLD_3_TOKEN_PROGRAM_ID.
Proof.
  destruct (new_from_cluster_follows_registry example_constants example_devnet_context
              "mainnet-beta" "https://solana-api.projectserum.com" mainnet_entry
              (Ids.mkGroupEntry "7pVYhpKUHw88neQHxgExSH6cerMZ1Axx1ALQP9sxtvQV"))
    as (ctx & Hctx & Hc & Hu & Hd & Hg & Hn & _ & Hp); [by vm_compute..|].
  exists ctx. repeat split; try done. by apply Hp.
Defined.

Lemma transfer_amount_is_quantity_scaled_witness :
  0 <= decimals fake_token
  /\ amount (new_TransferSplTokensInstructionBuilder example_devnet_context
               (VDict [("fake"%string, VStr "Wallet")]) fake_token
               (mkPublicKey "source SPL account") (mkPublicKey "destination SPL account")
               (Decimal_of_int 7))
     = 700.
Proof.
  split; [by vm_compute|].
  apply (proj1 (transfer_amount_is_quantity_scaled example_devnet_context
                  (VDict [("fake"%string, VStr "Wallet")]) fake_token
                  (mkPublicKey "source SPL account")
                  (mkPublicKey "destination SPL account") ltac:(by vm_compute)) 7).
Defined.

Lemma from_dict_matches_the_first_two_tokens_witness :
  _from_dict SPOT (mkPublicKey "GroupA") (Ids.mkMarketData "BTC/USDC" "a-spot-btc" "SpotBTC" "BTC")
    (_load_tokens (Ids.group_tokens devnet_group)) "USDC"
  = Return (SpotMarket
              (mkToken "BTC" "BTC" (mkPublicKey "3UNBZ6o52WTWwjac2kPUb4FyodhU1vFkRJheu1Sh2TvU") 6)
              (mkToken "USDC" "USDC" (mkPublicKey "8FRFC6MoGGkMFQwngccyu69VnYbzykGeez7ignHVAFSN") 6)
              (mkPublicKey "SpotBTC") (mkPublicKey "GroupA"))
  /\ _from_dict PERP (mkPublicKey "GroupA") (Ids.mkMarketData "ETH-PERP" "perp-eth" "PerpETH" "ETH")
       (_load_tokens (Ids.group_tokens devnet_group)) "USDC"
     = Raise (Exception [Lit "Could not find base ('"; Interp (VStr "ETH");
                         Lit "') or quote symbol ('"; Interp (VStr "USDC");
                         Lit "') in tokens."]).
Proof.
  split.
  - apply (proj1 (from_dict_matches_the_first_two_tokens SPOT (mkPublicKey "GroupA")
                    (Ids.mkMarketData "BTC/USDC" "a-spot-btc" "SpotBTC" "BTC")
                    (mkToken "USDC" "USDC"
                       (mkPublicKey "8FRFC6MoGGkMFQwngccyu69VnYbzykGeez7ignHVAFSN") 6)
                    (mkToken "BTC" "BTC"
                       (mkPublicKey "3UNBZ6o52WTWwjac2kPUb4FyodhU1vFkRJheu1Sh2TvU") 6)
                    [mkToken "ETH" "ETH"
                       (mkPublicKey "Cu84KB3tDL6SbFgToHMLYVDJJXdJjenNzSKikeAvzmkA") 6]
                    "USDC")); reflexivity.
  - apply (proj1 (proj2 (proj2
             (from_dict_matches_the_first_two_tokens PERP (mkPublicKey "GroupA")
                (Ids.mkMarketData "ETH-PERP" "perp-eth" "PerpETH" "ETH")
                (mkToken "USDC" "USDC"
                   (mkPublicKey "8FRFC6MoGGkMFQwngccyu69VnYbzykGeez7ignHVAFSN") 6)
                (mkToken "BTC" "BTC"
                   (mkPublicKey "3UNBZ6o52WTWwjac2kPUb4FyodhU1vFkRJheu1Sh2TvU") 6)
                [mkToken "ETH" "ETH"
                   (mkPublicKey "Cu84KB3tDL6SbFgToHMLYVDJJXdJjenNzSKikeAvzmkA") 6]
                "USDC"))));
      simpl; intros [H1 H2]; discriminate.
Defined.

Lemma find_by_symbol_and_address_witness :
  find_by_symbol upper example_constants (mkIdsJsonMarketLookup "devnet") "btc/usdc"
  = Return (Some (SpotMarket
      (mkToken "BTC" "BTC" (mkPublicKey "3UNBZ6o52WTWwjac2kPUb4FyodhU1vFkRJheu1Sh2TvU") 6)
      (mkToken "USDC" "USDC" (mkPublicKey "8FRFC6MoGGkMFQwngccyu69VnYbzykGeez7ignHVAFSN") 6)
      (mkPublicKey "BCqDfFd119UyNEC2HavKdy3F4qhy6EMGirSurNWKgioW")
      (mkPublicKey "Ec2enZyoC4nGpEfu2sUNAa2nUGJHWxoUWYSEJ2hNTWTA")))
  /\ find_by_address example_constants (mkIdsJsonMarketLookup "devnet")
       (mkPublicKey "spot-doge")
     = Return None.
Proof.
  pose proof (find_by_symbol_and_address upper example_constants
                (mkIdsJsonMarketLookup "devnet"))
    as (_ & Haddr & Hsym & _).
  split.
  - apply (Hsym "btc/usdc"%string [] devnet_group []
             [(PERP, Ids.mkMarketData "BTC-PERP" "perp-btc"
                       "FHQtNjRHA9U5ahrH7mWky3gamouhesyQ5QvpeGKrTh2z" "BTC")]
             (SPOT, Ids.mkMarketData "BTC/USDC" "spot-btc"
                      "BCqDfFd119UyNEC2HavKdy3F4qhy6EMGirSurNWKgioW" "BTC")
             [(SPOT, Ids.mkMarketData "ETH/USDC" "spot-eth"
                       "6MNPzJbwYrnBvnhdLKNXPqWfnVh3KqGtj3vSbUvSd3dH" "ETH")]).
    + reflexivity.
    + reflexivity.
    + reflexivity.
    + intros g' Hg'. by apply elem_of_nil in Hg'.
    + intros e' He'. apply list_elem_of_singleton in He' as ->. by vm_compute.
    + by vm_compute.
    + by vm_compute.
  - apply Haddr. intros g Hg _ e He.
    apply list_elem_of_singleton in Hg as ->.
    repeat (apply elem_of_cons in He as [->|He]; [by vm_compute|]).
    by apply elem_of_nil in He.
Defined.

Lemma wait_for_confirmation_polls_default_context_witness :
  let self := new_from_cluster_url (default_context example_defaults)
                                   "https://api.mainnet-beta.solana.com" in
  let c := client (default_context example_defaults) in
  client self <> c
  /\ wait_for_confirmation example_defaults
       (node_confirming_at "https://api.mainnet-beta.solana.com") self "tx" 2
     = ([LogInfo [Lit "Waiting up to "; Interp (VInt 2); Lit " seconds for ";
                  Interp (VStr "tx"); Lit "."];
         Sleep 1; GetConfirmedTransaction c "tx";
         Sleep 1; GetConfirmedTransaction c "tx";
         LogInfo [Lit "Timed out after "; Interp (VInt 1);
                  Lit " seconds waiting on transaction "; Interp (VStr "tx"); Lit "."]],
        Return VNone)
  /\ wait_for_confirmation example_defaults
       (node_confirming_at "https://solana-api.projectserum.com") self "tx" 2
     = ([LogInfo [Lit "Waiting up to "; Interp (VInt 2); Lit " seconds for ";
                  Interp (VStr "tx"); Lit "."];
         Sleep 1; GetConfirmedTransaction c "tx";
         LogInfo [Lit "Confirmed after "; Interp (VInt 0); Lit " seconds."]],
        Return (VDict [("slot"%string, VInt 1)])).
Proof.
  intros self c. split; [discriminate|]. split.
  - apply (proj1 (proj2 (proj2 (proj2 (proj2
             (wait_for_confirmation_polls_default_context example_defaults
                (node_confirming_at "https://api.mainnet-beta.solana.com") self "tx" 2)))))).
    + reflexivity.
    + intros i Hi. reflexivity.
  - apply (proj1 (proj2 (proj2 (proj2
             (wait_for_confirmation_polls_default_context example_defaults
                (node_confirming_at "https://solana-api.projectserum.com") self "tx" 2))))
             0%nat (VDict [("slot"%string, VInt 1)])).
    + intros i Hi. lia.
    + reflexivity.
    + discriminate.
    + reflexivity.
Defined.

Lemma all_markets_returns_last_built_witness :
  exists m,
    all_markets two_token_constants (mkIdsJsonMarketLookup "devnet") = Return [m]
    /\ exists md, last (Ids.group_perpMarkets group_B) = Some md
                  /\ construct group_B (PERP, md) = Return m.
Proof.
  apply (all_markets_returns_last_built two_token_constants (mkIdsJsonMarketLookup "devnet")
           [group_A; group_M] group_B [group_C]).
  - intros g' Hg' Hactive e He.
    repeat (apply elem_of_cons in Hg' as [->|Hg']);
      [| discriminate Hactive | | |by apply elem_of_nil in Hg'];
      repeat (apply elem_of_cons in He as [->|He]; [by eexists|]);
      by apply elem_of_nil in He.
  - reflexivity.
  - reflexivity.
  - discriminate.
  - intros g' Hg' _. by apply list_elem_of_singleton in Hg' as ->.
Defined.

(** * Further properties of context.py *)

(** ** unwrap_or_raise_exception: when it returns, what it raises *)

(** X1: the unwrapping returns a value exactly when the envelope has no
    ["error"] key and has a ["result"]; with an ["error"] key it never
    returns, whatever else the envelope holds. *)
Theorem unwrap_returns_iff (response : list (string * value)) (v : value) :
  unwrap_or_raise_exception response = Return v
  <-> dict_get "error" response = None /\ dict_get "result" response = Some v.
Proof.
  unfold unwrap_or_raise_exception, dict_in, getitem.
  destruct (dict_get "error" response) as [err|] eqn:Herr.
  - split; [|by intros [? _]]. simpl. intros H. exfalso.
    destruct (is_str_class err); simpl in H; [done|].
    destruct (subscript err "message") as [m|]; simpl in H; [|done].
    destruct (subscript err "code") as [c|]; simpl in H; done.
  - destruct (dict_get "result" response) as [r|]; split.
    + by intros [= ->].
    + by intros [_ [= ->]].
    + done.
    + by intros [_ ?].
Qed.

Lemma unwrap_returns_iff_witness :
  unwrap_or_raise_exception [("result"%string, VInt 42); ("id"%string, VInt 1)]
  = Return (VInt 42)
  /\ unwrap_or_raise_exception
       [("result"%string, VInt 42); ("error"%string, VDict [])] <> Return (VInt 42).
Proof.
  split.
  - by apply (proj2 (unwrap_returns_iff _ _)).
  - intros H. by apply (proj1 (unwrap_returns_iff _ _)) in H as [? _].
Defined.

(** X2: for an error that is not the class [str], the generic
    exception is raised exactly when the error is a dict that has both
    a ["message"] and a ["code"]; every other shape (a bare string, a
    number, null, a dict lacking one of the two) leaves as a
    [TypeError] or [KeyError] instead. *)
Theorem unwrap_generic_error_iff (response : list (string * value)) (err : value) :
  dict_get "error" response = Some err ->
  err <> VStrClass ->
  ((exists msg, unwrap_or_raise_exception response = Raise (Exception msg))
   <-> exists fields message code,
         err = VDict fields
         /\ dict_get "message" fields = Some message
         /\ dict_get "code" fields = Some code)
  /\ (forall fields, err = VDict fields -> dict_get "message" fields = None ->
      unwrap_or_raise_exception response = Raise (KeyError "message"))
  /\ (forall fields message, err = VDict fields ->
      dict_get "message" fields = Some message -> dict_get "code" fields = None ->
      unwrap_or_raise_exception response = Raise (KeyError "code"))
  /\ ((forall fields, err <> VDict fields) ->
      unwrap_or_raise_exception response = Raise TypeError).
Proof.
  intros Herr Hclass. unfold unwrap_or_raise_exception, dict_in, getitem.
  rewrite Herr. simpl. repeat split.
  - intros [msg H].
    destruct err as [| | | | |fields|]; simpl in H; try discriminate; [|done].
    unfold getitem in H.
    destruct (dict_get "message" fields) as [m|] eqn:Hm; simpl in H; [|discriminate].
    destruct (dict_get "code" fields) as [c|] eqn:Hc; simpl in H; [|discriminate].
    by exists fields, m, c.
  - intros (fields & m & c & -> & Hm & Hc). simpl. unfold getitem.
    rewrite Hm, Hc. simpl. by eexists.
  - intros fields -> Hm. simpl. unfold getitem. by rewrite Hm.
  - intros fields m -> Hm Hc. simpl. unfold getitem. by rewrite Hm, Hc.
  - intros Hnd. destruct err as [| | | | |fields|]; try done. by destruct (Hnd fields).
Qed.

Lemma unwrap_generic_error_iff_witness :
  unwrap_or_raise_exception [("error"%string, VDict [("message"%string, VStr "bad")])]
  = Raise (KeyError "code")
  /\ unwrap_or_raise_exception [("error"%string, VInt 7)] = Raise TypeError.
Proof.
  split.
  - apply (proj1 (proj2 (proj2
             (unwrap_generic_error_iff
                [("error"%string, VDict [("message"%string, VStr "bad")])]
                (VDict [("message"%string, VStr "bad")]) eq_refl ltac:(discriminate))))
             [("message"%string, VStr "bad")] (VStr "bad")); reflexivity.
  - apply (proj2 (proj2 (proj2
             (unwrap_generic_error_iff [("error"%string, VInt 7)] (VInt 7) eq_refl
                ltac:(discriminate))))).
    discriminate.
Defined.

(** ** wait_for_confirmation: the shape of every run *)

(** X3: with a positive wait and a node that always answers null, the
    run is the opening log line, exactly [max_wait_in_seconds] rounds
    of a one-second sleep followed by a poll, the time-out log line
    naming [max_wait_in_seconds - 1], and it returns [None]. *)
Theorem wait_times_out_after_all_polls
    (D : Defaults) (node : Node) (self : Context) (transaction_id : string)
    (max_wait_in_seconds : Z) :
  0 < max_wait_in_seconds ->
  (forall i, dict_get "result" (node (client (default_context D)) transaction_id i)
             = Some VNone) ->
  wait_for_confirmation D node self transaction_id max_wait_in_seconds
  = (LogInfo [Lit "Waiting up to "; Interp (VInt max_wait_in_seconds);
              Lit " seconds for "; Interp (VStr transaction_id); Lit "."]
       :: poll_events (client (default_context D)) transaction_id
            (Z.to_nat max_wait_in_seconds)
       ++ [LogInfo [Lit "Timed out after "; Interp (VInt (max_wait_in_seconds - 1));
                    Lit " seconds waiting on transaction ";
                    Interp (VStr transaction_id); Lit "."]],
     Return VNone).
Proof. apply wait_always_null. Qed.

Lemma wait_times_out_after_all_polls_witness :
  (wait_for_confirmation example_defaults node_never_confirming example_devnet_context
     "tx" 3).2 = Return VNone
  /\ length (wait_for_confirmation example_defaults node_never_confirming
               example_devnet_context "tx" 3).1 = 8%nat.
Proof.
  rewrite (wait_times_out_after_all_polls example_defaults node_never_confirming
             example_devnet_context "tx" 3 ltac:(lia) (fun _ => eq_refl)).
  split; reflexivity.
Defined.

(** X4: when the node answers null to the polls before the one of
    index [k], a non-null result to that one, and [k] is within the
    wait, the run stops after [k + 1] rounds and returns that result;
    the log line names [k] seconds although [k + 1] were slept. *)
Theorem wait_returns_first_non_null
    (D : Defaults) (node : Node) (self : Context) (transaction_id : string)
    (max_wait_in_seconds : Z) (k : nat) (result : value) :
  (forall i, (i < k)%nat ->
     dict_get "result" (node (client (default_context D)) transaction_id i) = Some VNone) ->
  dict_get "result" (node (client (default_context D)) transaction_id k) = Some result ->
  result <> VNone ->
  Z.of_nat k < max_wait_in_seconds ->
  wait_for_confirmation D node self transaction_id max_wait_in_seconds
  = (LogInfo [Lit "Waiting up to "; Interp (VInt max_wait_in_seconds);
              Lit " seconds for "; Interp (VStr transaction_id); Lit "."]
       :: poll_events (client (default_context D)) transaction_id (S k)
       ++ [LogInfo [Lit "Confirmed after "; Interp (VInt (Z.of_nat k)); Lit " seconds."]],
     Return result).
Proof. apply wait_first_non_null. Qed.

Lemma wait_returns_first_non_null_witness :
  (wait_for_confirmation example_defaults (node_confirming_from 2) example_devnet_context
     "tx" 60).2 = Return (VDict [("slot"%string, VInt 1)])
  /\ length (wait_for_confirmation example_defaults (node_confirming_from 2)
               example_devnet_context "tx" 60).1 = 8%nat.
Proof.
  rewrite (wait_returns_first_non_null example_defaults (node_confirming_from 2)
             example_devnet_context "tx" 60 2 (VDict [("slot"%string, VInt 1)])).
  - split; reflexivity.
  - intros i Hi. unfold node_confirming_from.
    by rewrite (proj2 (Nat.ltb_lt i 2) Hi).
  - reflexivity.
  - discriminate.
  - lia.
Defined.

Lemma loop_trace_shape (D : Defaults) (node : Node) (transaction_id : string)
    (waits : list Z) (wait : option Z) :
  exists (k : nat) (logs : list event),
    (k <= length waits)%nat /\ Forall is_log logs /\ (length logs <= 1)%nat
    /\ (confirmation_loop D node transaction_id waits wait).1
       = poll_events (client (default_context D)) transaction_id k ++ logs
    /\ (forall r, (confirmation_loop D node transaction_id waits wait).2 = Return (inr r) ->
        logs = [] /\ k = length waits).
Proof.
  revert wait. induction waits as [|w waits IH]; intros wait.
  - exists 0%nat, []. repeat split; try done. simpl; lia.
  - rewrite confirmation_loop_cons.
    destruct (dict_get _ _) as [result|].
    + cbv zeta. destruct (is_None result).
      * destruct (IH (Some w)) as (k & logs & Hk & Hlogs & Hlen & Htr & Hend).
        exists (S k), logs. cbn [fst snd length].
        split; [lia|]. split; [done|]. split; [done|]. split; [by rewrite Htr|].
        intros r Hr. by apply Hend in Hr as [-> ->].
      * exists 1%nat, [LogInfo [Lit "Confirmed after "; Interp (VInt w); Lit " seconds."]].
        cbn [fst snd length]. repeat split; try done; try lia.
        constructor; [by eexists|constructor].
    + exists 1%nat, []. cbn [fst snd length]. repeat split; try done; lia.
Qed.

(** X5: whatever the node answers, a run is the opening log line, then
    some [k] rounds of a one-second sleep followed by one poll, with
    [k] at most [max_wait_in_seconds], then at most one more log line:
    no poll is made without the sleep before it, and never more polls
    than seconds allowed. *)
Theorem wait_sleeps_before_each_poll
    (D : Defaults) (node : Node) (self : Context) (transaction_id : string)
    (max_wait_in_seconds : Z) :
  exists (k : nat) (logs : list event),
    (k <= Z.to_nat max_wait_in_seconds)%nat
    /\ Forall is_log logs /\ (length logs <= 1)%nat
    /\ (wait_for_confirmation D node self transaction_id max_wait_in_seconds).1
       = LogInfo [Lit "Waiting up to "; Interp (VInt max_wait_in_seconds);
                  Lit " seconds for "; Interp (VStr transaction_id); Lit "."]
           :: poll_events (client (default_context D)) transaction_id k ++ logs.
Proof.
  destruct (loop_trace_shape D node transaction_id (range0 max_wait_in_seconds) None)
    as (k & logs & Hk & Hlogs & Hlen & Htr & Hend).
  unfold range0 in Hk. rewrite length_fmap, length_seq in Hk.
  rewrite wait_for_confirmation_eq. cbv zeta.
  destruct (confirmation_loop D node transaction_id (range0 max_wait_in_seconds) None)
    as [tr [[result|[wait|]]|e]] eqn:Hloop; cbn [fst snd] in *.
  - exists k, logs. by rewrite Htr.
  - destruct (Hend _ eq_refl) as [-> _]. rewrite app_nil_r in Htr.
    eexists k, [_]. rewrite Htr. repeat split; try done.
    constructor; [by eexists|constructor].
  - exists k, logs. by rewrite Htr.
  - exists k, logs. by rewrite Htr.
Qed.

(** ** Deriving contexts *)

Lemma init_substitution_absorbs cluster cluster_url program_id dex_program_id group_name
    (group_id : IdValue) :
  __init__ cluster cluster_url
    (if eq_key group_id _OLD_3_TOKEN_GROUP_ID then Key _OLD_3_TOKEN_PROGRAM_ID
     else program_id)
    dex_program_id group_name group_id
  = __init__ cluster cluster_url program_id dex_program_id group_name group_id.
Proof. unfold __init__. by case_bool_decide. Qed.

(** X6: on a context that keeps the legacy invariant,
    [new_from_cluster_url] changes the URL and the client and nothing
    else; and deriving twice is deriving with the last URL. *)
Theorem new_from_cluster_url_changes_the_url_only (self : Context) (url url' : string) :
  legacy_program_forced self ->
  (let ctx := new_from_cluster_url self url in
   cluster_url ctx = url /\ client ctx = mkClient url
   /\ cluster ctx = cluster self /\ program_id ctx = program_id self
   /\ dex_program_id ctx = dex_program_id self
   /\ group_name ctx = group_name self /\ group_id ctx = group_id self)
  /\ new_from_cluster_url (new_from_cluster_url self url) url'
     = new_from_cluster_url self url'.
Proof.
  intros Hinv. split.
  - repeat split. unfold new_from_cluster_url, __init__. simpl.
    case_bool_decide as Hg; [|done]. symmetry. by apply Hinv.
  - unfold new_from_cluster_url. simpl. apply init_substitution_absorbs.
Qed.

Lemma new_from_cluster_url_changes_the_url_only_witness :
  program_id (solana_context example_defaults) = _OLD_3_TOKEN_PROGRAM_ID
  /\ cluster_url (solana_context example_defaults)
     = "https://api.mainnet-beta.solana.com"%string
  /\ group_id (solana_context example_defaults) = _OLD_3_TOKEN_GROUP_ID.
Proof.
  pose proof (proj1 (new_from_cluster_url_changes_the_url_only
                       (default_context example_defaults)
                       "https://api.mainnet-beta.solana.com" ""
                       (init_legacy _ _ _ _ _ _)))
    as (Hurl & _ & _ & Hp & _ & _ & Hg).
  split; [exact Hp|]. split; [exact Hurl|exact Hg].
Defined.

Lemma bind_Return {A B : Type} (a : A) (f : A -> outcome B) : Return a ≫= f = f a.
Proof. reflexivity. Qed.

Lemma new_from_group_name_eq (K : Ids.Constants) (self : Context) (name : string)
    (e : Ids.ClusterEntry) (g : Ids.GroupEntry) :
  Ids.clusters K !! cluster self = Some e ->
  dict_get name (Ids.mango_groups e) = Some g ->
  new_from_group_name K self name
  = Return (__init__ (cluster self) (cluster_url self)
              (if eq_key (group_id self) _OLD_3_TOKEN_GROUP_ID
               then Key (mkPublicKey (Ids.mango_program_id e)) else program_id self)
              (dex_program_id self) name (mkPublicKey (Ids.mango_group_pk g))).
Proof.
  intros He Hg.
  unfold new_from_group_name, inherited_program_id, Ids.group_pk_of, Ids.cluster_entry,
    getitem. rewrite He. simpl. rewrite Hg. simpl.
  by destruct (eq_key (group_id self) _OLD_3_TOKEN_GROUP_ID).
Qed.

(** X7: for a group name of the context's cluster,
    [new_from_group_name] keeps cluster, URL and DEX program id, takes
    the group id from the registry, and chooses the program id so: the
    old program for the old 3-token group; otherwise the registry's
    program when the context was on the old group, and the context's
    own program id when it was not. *)
Theorem new_from_group_name_program_id
    (K : Ids.Constants) (self : Context) (name : string)
    (e : Ids.ClusterEntry) (g : Ids.GroupEntry) :
  Ids.clusters K !! cluster self = Some e ->
  dict_get name (Ids.mango_groups e) = Some g ->
  exists ctx,
    new_from_group_name K self name = Return ctx
    /\ cluster ctx = cluster self /\ cluster_url ctx = cluster_url self
    /\ dex_program_id ctx = dex_program_id self
    /\ group_name ctx = name
    /\ group_id ctx = mkPublicKey (Ids.mango_group_pk g)
    /\ (group_id ctx = _OLD_3_TOKEN_GROUP_ID -> program_id ctx = _OLD_3_TOKEN_PROGRAM_ID)
    /\ (group_id ctx <> _OLD_3_TOKEN_GROUP_ID -> group_id self = _OLD_3_TOKEN_GROUP_ID ->
        program_id ctx = mkPublicKey (Ids.mango_program_id e))
    /\ (group_id ctx <> _OLD_3_TOKEN_GROUP_ID -> group_id self <> _OLD_3_TOKEN_GROUP_ID ->
        program_id ctx = program_id self).
Proof.
  intros He Hg.
  exists (__init__ (cluster self) (cluster_url self)
            (if eq_key (group_id self) _OLD_3_TOKEN_GROUP_ID
             then Key (mkPublicKey (Ids.mango_program_id e)) else program_id self)
            (dex_program_id self) name (mkPublicKey (Ids.mango_group_pk g))).
  split; [by apply new_from_group_name_eq|].
  simpl. repeat split.
  - intros Hold. by rewrite (bool_decide_eq_true_2 _ Hold).
  - intros Hne Hself.
    by rewrite (bool_decide_eq_false_2 _ Hne), (bool_decide_eq_true_2 _ Hself).
  - intros Hne Hself.
    by rewrite (bool_decide_eq_false_2 _ Hne), (bool_decide_eq_false_2 _ Hself).
Qed.

Lemma new_from_group_name_program_id_witness :
  exists ctx,
    new_from_group_name example_constants (default_context example_defaults)
      "BTC_ETH_SOL_SRM_USDC" = Return ctx
    /\ program_id (default_context example_defaults) = _OLD_3_TOKEN_PROGRAM_ID
    /\ program_id ctx = mkPublicKey "5fNfvyp5czQVX77yoACa3JJVEhdRaWjPuazuWgjhTqEH".
Proof.
  destruct (new_from_group_name_program_id example_constants
              (default_context example_defaults) "BTC_ETH_SOL_SRM_USDC" mainnet_entry
              (Ids.mkGroupEntry "2oogpTYm1sp6LPZAWD3bp2wsFpnV2kXL1s52yyFhW5vp"))
    as (ctx & Hctx & _ & _ & _ & _ & Hg & _ & Hp & _); [by vm_compute..|].
  exists ctx. split; [done|]. split; [reflexivity|].
  apply Hp; [|reflexivity]. rewrite Hg. discriminate.
Defined.

(** X8: [new_from_group_name] lets the [KeyError] of the registry out:
    with the context's cluster when the registry has no entry for it,
    with the group name when the cluster has no such group. *)
Theorem new_from_group_name_unknown (K : Ids.Constants) (self : Context) (name : string) :
  (Ids.clusters K !! cluster self = None ->
   new_from_group_name K self name = Raise (KeyError (cluster self)))
  /\ (forall e, Ids.clusters K !! cluster self = Some e ->
      dict_get name (Ids.mango_groups e) = None ->
      new_from_group_name K self name = Raise (KeyError name)).
Proof.
  unfold new_from_group_name, Ids.group_pk_of, Ids.cluster_entry, getitem. split.
  - by intros ->.
  - intros e -> Hn. simpl. by rewrite Hn.
Qed.

Lemma new_from_group_name_unknown_witness :
  new_from_group_name example_constants example_devnet_context "BTC_ETH_SOL_SRM_USDC"
  = Raise (KeyError "BTC_ETH_SOL_SRM_USDC").
Proof.
  apply (proj2 (new_from_group_name_unknown example_constants example_devnet_context
                  "BTC_ETH_SOL_SRM_USDC") devnet_entry); by vm_compute.
Defined.

(** X9: a context that is not on the old group and carries a program
    id of its own loses it on the way through the old group: deriving
    the old group and then a current one gives the registry's program
    id, whatever the program id was at the start. *)
Theorem through_the_old_group_and_back
    (K : Ids.Constants) (self : Context) (old_name name : string)
    (e : Ids.ClusterEntry) (g : Ids.GroupEntry) :
  Ids.clusters K !! cluster self = Some e ->
  dict_get old_name (Ids.mango_groups e)
  = Some (Ids.mkGroupEntry (b58 _OLD_3_TOKEN_GROUP_ID)) ->
  dict_get name (Ids.mango_groups e) = Some g ->
  mkPublicKey (Ids.mango_group_pk g) <> _OLD_3_TOKEN_GROUP_ID ->
  program_id <$> (new_from_group_name K self old_name
                  ≫= fun ctx => new_from_group_name K ctx name)
  = Return (Key (mkPublicKey (Ids.mango_program_id e))).
Proof.
  intros He Hold Hg Hne.
  assert (Key (mkPublicKey (Ids.mango_group_pk g)) <> Key _OLD_3_TOKEN_GROUP_ID) as Hne'
    by congruence.
  rewrite (new_from_group_name_eq K self old_name e _ He Hold), bind_Return.
  rewrite (new_from_group_name_eq K (__init__ _ _ _ _ _ _) name e g He Hg). simpl.
  by rewrite (bool_decide_eq_false_2 _ Hne').
Qed.

Lemma through_the_old_group_and_back_witness :
  program_id example_mainnet_context
  = mkPublicKey "5fNfvyp5czQVX77yoACa3JJVEhdRaWjPuazuWgjhTqEH"
  /\ program_id <$>
       (new_from_group_name example_constants
          (__init__ "mainnet-beta" "https://solana-api.projectserum.com"
             (mkPublicKey "MyOwnProgram") (mkPublicKey "MyOwnDex")
             "BTC_ETH_SOL_SRM_USDC"
             (mkPublicKey "2oogpTYm1sp6LPZAWD3bp2wsFpnV2kXL1s52yyFhW5vp"))
          "BTC_ETH_USDT"
        ≫= fun ctx => new_from_group_name example_constants ctx "BTC_ETH_SOL_SRM_USDC")
     = Return (Key (mkPublicKey "5fNfvyp5czQVX77yoACa3JJVEhdRaWjPuazuWgjhTqEH")).
Proof.
  split; [reflexivity|].
  apply (through_the_old_group_and_back example_constants _ "BTC_ETH_USDT"
           "BTC_ETH_SOL_SRM_USDC" mainnet_entry
           (Ids.mkGroupEntry "2oogpTYm1sp6LPZAWD3bp2wsFpnV2kXL1s52yyFhW5vp"));
    by vm_compute.
Defined.

(** X10: deriving a context for its own group name gives the same
    context back, when the registry has that group under the context's
    group id. *)
Theorem new_from_group_name_same_group
    (K : Ids.Constants) (cluster cluster_url : string) (program_id dex_program_id : IdValue)
    (group_name : string) (group_id : PublicKey) (e : Ids.ClusterEntry) :
  Ids.clusters K !! cluster = Some e ->
  dict_get group_name (Ids.mango_groups e) = Some (Ids.mkGroupEntry (b58 group_id)) ->
  let self := __init__ cluster cluster_url program_id dex_program_id group_name group_id in
  new_from_group_name K self group_name = Return self.
Proof.
  intros He Hg self. subst self.
  rewrite (new_from_group_name_eq K (__init__ _ _ _ _ _ _) group_name e _ He Hg). simpl.
  destruct group_id as [text]. f_equal. unfold __init__. cbn [b58].
  by case_bool_decide.
Qed.

Lemma new_from_group_name_same_group_witness :
  new_from_group_name example_constants example_devnet_context "BTC_ETH_USDT"
  = Return example_devnet_context.
Proof.
  apply (new_from_group_name_same_group example_constants "devnet"
           "https://api.devnet.solana.com"
           (mkPublicKey "9XzhtAtDXxW2rjbeVFhTq4fnhD8dqzr154r5b2z6pxEp")
           (mkPublicKey "DESVgJVGajEgKGXhb6XmqDHGz3VjdgP7rEVESBgxmroY")
           "BTC_ETH_USDT" (mkPublicKey "B9Uddrao7b7sCjNZp1BJSQqFzqhMEmBxD2SvYTs2TSBn")
           devnet_entry); by vm_compute.
Defined.

(** ** Names and addresses *)

Lemma dict_get_elem {V : Type} (k : string) (d : list (string * V)) (v : V) :
  dict_get k d = Some v -> (k, v) ∈ d.
Proof.
  induction d as [|[k' v'] d IH]; simpl; [done|].
  case_bool_decide as Hk.
  - intros [= ->]. subst k'. apply list_elem_of_here.
  - intros H. apply list_elem_of_further. by apply IH.
Qed.

Lemma dict_get_of_key {V : Type} (k : string) (d : list (string * V)) :
  k ∈ (fst <$> d) -> exists v, dict_get k d = Some v.
Proof.
  induction d as [|[k' v'] d IH]; simpl.
  - by intros ?%elem_of_nil.
  - intros Hin. case_bool_decide as Hk; [by eexists|].
    apply elem_of_cons in Hin as [->|Hin]; [done|]. by apply IH.
Qed.

Lemma dict_get_NoDup {V : Type} (k : string) (d : list (string * V)) (v : V) :
  NoDup (fst <$> d) -> (k, v) ∈ d -> dict_get k d = Some v.
Proof.
  induction d as [|[k' v'] d IH]; simpl.
  - by intros _ ?%elem_of_nil.
  - intros Hnd Hin. apply NoDup_cons in Hnd as [Hk' Hnd].
    apply elem_of_cons in Hin as [[= -> ->]|Hin].
    + by rewrite bool_decide_eq_true_2.
    + rewrite bool_decide_eq_false_2; [by apply IH|].
      intros ->. apply Hk'. by apply (list_elem_of_fmap_2 fst) in Hin.
Qed.

Lemma scan_group_items_None (items : list (string * Ids.GroupEntry)) (a : PublicKey) :
  (forall n g, (n, g) ∈ items -> Ids.mango_group_pk g <> b58 a) ->
  scan_group_items items a = None.
Proof.
  induction items as [|[n g] items IH]; intros Hne; simpl; [done|].
  rewrite bool_decide_eq_false_2 by (apply (Hne n), list_elem_of_here).
  apply IH. intros n' g' Hin. apply (Hne n'). by apply list_elem_of_further.
Qed.

Lemma scan_group_items_first (pre post : list (string * Ids.GroupEntry)) n g
    (a : PublicKey) :
  (forall n' g', (n', g') ∈ pre -> Ids.mango_group_pk g' <> b58 a) ->
  Ids.mango_group_pk g = b58 a ->
  scan_group_items (pre ++ (n, g) :: post) a = Some n.
Proof.
  induction pre as [|[n' g'] pre IH]; intros Hne Hg; simpl.
  - by rewrite bool_decide_eq_true_2.
  - rewrite bool_decide_eq_false_2 by (apply (Hne n'), list_elem_of_here).
    apply IH; [|done]. intros n'' g'' Hin. apply (Hne n''). by apply list_elem_of_further.
Qed.

Lemma scan_group_names_eq (all rest : list (string * Ids.GroupEntry)) (a : PublicKey)
    (unknown : string) :
  NoDup (fst <$> all) ->
  (forall x, x ∈ rest -> x ∈ all) ->
  scan_group_names all (fst <$> rest) (b58 a) unknown
  = Return (default unknown (scan_group_items rest a)).
Proof.
  intros Hnd. induction rest as [|[n g] rest IH]; intros Hsub; simpl; [done|].
  unfold getitem. rewrite (dict_get_NoDup n all g Hnd) by apply Hsub, list_elem_of_here.
  simpl. case_bool_decide; [done|].
  apply IH. intros x Hx. by apply Hsub, list_elem_of_further.
Qed.

Lemma scan_group_names_miss (all : list (string * Ids.GroupEntry)) (names : list string)
    (a : PublicKey) (unknown : string) :
  (forall n, n ∈ names -> n ∈ (fst <$> all)) ->
  (forall n g, (n, g) ∈ all -> Ids.mango_group_pk g <> b58 a) ->
  scan_group_names all names (b58 a) unknown = Return unknown.
Proof.
  intros Hsub Hne. induction names as [|n names IH]; simpl; [done|].
  destruct (dict_get_of_key n all) as [g Hg]; [apply Hsub, list_elem_of_here|].
  unfold getitem. rewrite Hg. simpl.
  rewrite bool_decide_eq_false_2 by (apply (Hne n), dict_get_elem, Hg).
  apply IH. intros n' Hn'. by apply Hsub, list_elem_of_further.
Qed.

(** X11: [lookup_group_name] gives the name of the first group of the
    context's cluster registered under the address, the label
    "« Unknown Group »" when none is, and the [KeyError] of the
    registry when the cluster has no entry. *)
Theorem lookup_group_name_hit_and_miss
    (K : Ids.Constants) (self : Context) (group_address : PublicKey) :
  (Ids.clusters K !! cluster self = None ->
   lookup_group_name K self group_address = Raise (KeyError (cluster self)))
  /\ (forall e, Ids.clusters K !! cluster self = Some e ->
      (forall n g, (n, g) ∈ Ids.mango_groups e ->
         Ids.mango_group_pk g <> b58 group_address) ->
      lookup_group_name K self group_address = Return "« Unknown Group »"%string)
  /\ (forall e pre n g post, Ids.clusters K !! cluster self = Some e ->
      Ids.mango_groups e = pre ++ (n, g) :: post ->
      (forall n' g', (n', g') ∈ pre -> Ids.mango_group_pk g' <> b58 group_address) ->
      Ids.mango_group_pk g = b58 group_address ->
      lookup_group_name K self group_address = Return n).
Proof.
  unfold lookup_group_name, Ids.cluster_entry. repeat split.
  - by intros ->.
  - intros e -> Hne. simpl. by rewrite scan_group_items_None.
  - intros e pre n g post -> Hm Hne Hg. simpl. by rewrite Hm, scan_group_items_first.
Qed.

Lemma lookup_group_name_hit_and_miss_witness :
  lookup_group_name example_constants example_mainnet_context
    (mkPublicKey "2oogpTYm1sp6LPZAWD3bp2wsFpnV2kXL1s52yyFhW5vp")
  = Return "BTC_ETH_SOL_SRM_USDC"%string
  /\ lookup_group_name example_constants
       (new_from_cluster_url example_mainnet_context "") (mkPublicKey "")
     = Return "« Unknown Group »"%string.
Proof.
  pose proof (lookup_group_name_hit_and_miss example_constants example_mainnet_context
                (mkPublicKey "2oogpTYm1sp6LPZAWD3bp2wsFpnV2kXL1s52yyFhW5vp"))
    as (_ & _ & Hhit).
  pose proof (lookup_group_name_hit_and_miss example_constants
                (new_from_cluster_url example_mainnet_context "") (mkPublicKey ""))
    as (_ & Hmiss & _).
  split.
  - apply (Hhit mainnet_entry
             [("BTC_ETH_USDT"%string,
               Ids.mkGroupEntry "7pVYhpKUHw88neQHxgExSH6cerMZ1Axx1ALQP9sxtvQV")]
             "BTC_ETH_SOL_SRM_USDC"%string
             (Ids.mkGroupEntry "2oogpTYm1sp6LPZAWD3bp2wsFpnV2kXL1s52yyFhW5vp") []).
    + by vm_compute.
    + reflexivity.
    + intros n' g' Hin. apply list_elem_of_singleton in Hin as [= -> ->]. discriminate.
    + reflexivity.
  - apply (Hmiss mainnet_entry); [by vm_compute|].
    intros n g Hin. unfold mainnet_entry in Hin. simpl in Hin.
    repeat (apply elem_of_cons in Hin as [[= -> ->]|Hin]; [discriminate|]).
    by apply elem_of_nil in Hin.
Defined.

(** X12: the group name [new_from_group_id] gives its context is the
    one [lookup_group_name] reports for the same address, and both
    raise alike for a cluster the registry lacks; the group names of a
    cluster being the keys of a dict, they are distinct. *)
Theorem new_from_group_id_names_as_lookup
    (K : Ids.Constants) (self : Context) (address : PublicKey) :
  (forall e, Ids.clusters K !! cluster self = Some e ->
     NoDup (fst <$> Ids.mango_groups e)) ->
  group_name <$> new_from_group_id K self address
  = lookup_group_name K self address.
Proof.
  intros Hnd. unfold new_from_group_id, lookup_group_name, inherited_program_id,
    Ids.cluster_entry.
  destruct (Ids.clusters K !! cluster self) as [e|] eqn:He; [|done]. simpl.
  rewrite (scan_group_names_eq _ _ address) by auto. simpl.
  destruct (bool_decide (group_id self = _OLD_3_TOKEN_GROUP_ID)); simpl;
    by destruct (scan_group_items (Ids.mango_groups e) address).
Qed.

Lemma new_from_group_id_names_as_lookup_witness :
  group_name <$>
    new_from_group_id example_constants example_mainnet_context _OLD_3_TOKEN_GROUP_ID
  = Return "BTC_ETH_USDT"%string.
Proof.
  rewrite (new_from_group_id_names_as_lookup example_constants example_mainnet_context
             _OLD_3_TOKEN_GROUP_ID).
  - by vm_compute.
  - intros e He. vm_compute in He. injection He as <-.
    apply (bool_decide_unpack (NoDup _)). by vm_compute.
Defined.

(** X13: for an address no group of the cluster is registered under,
    [new_from_group_id] does not raise: it returns a context named
    "« Unknown Group »" that carries the address given as its group
    id. *)
Theorem new_from_group_id_unregistered
    (K : Ids.Constants) (self : Context) (address : PublicKey) (e : Ids.ClusterEntry) :
  Ids.clusters K !! cluster self = Some e ->
  (forall n g, (n, g) ∈ Ids.mango_groups e -> Ids.mango_group_pk g <> b58 address) ->
  exists ctx,
    new_from_group_id K self address = Return ctx
    /\ group_name ctx = "« Unknown Group »"%string
    /\ group_id ctx = address
    /\ cluster ctx = cluster self /\ cluster_url ctx = cluster_url self.
Proof.
  intros He Hne.
  exists (__init__ (cluster self) (cluster_url self)
            (if bool_decide (group_id self = _OLD_3_TOKEN_GROUP_ID)
             then mkPublicKey (Ids.mango_program_id e) else program_id self)
            (dex_program_id self) "« Unknown Group »" address).
  split; [|done].
  unfold new_from_group_id, inherited_program_id, Ids.cluster_entry. rewrite He. simpl.
  rewrite scan_group_names_miss by done. simpl.
  by destruct (bool_decide (group_id self = _OLD_3_TOKEN_GROUP_ID)).
Qed.

Lemma new_from_group_id_unregistered_witness :
  exists ctx,
    new_from_group_id example_constants example_devnet_context (mkPublicKey "Nowhere")
    = Return ctx
    /\ group_name ctx = "« Unknown Group »"%string
    /\ group_id ctx = mkPublicKey "Nowhere".
Proof.
  destruct (new_from_group_id_unregistered example_constants example_devnet_context
              (mkPublicKey "Nowhere") devnet_entry)
    as (ctx & Hctx & Hn & Hg & _); [by vm_compute| |by exists ctx].
  intros n g Hin. apply list_elem_of_singleton in Hin as [= -> ->]. discriminate.
Defined.

(** ** _lookup_name_by_address and _lookup_address_by_name *)

Lemma lookup_address_by_name_eq (name : string) (collection : list (string * string)) :
  _lookup_address_by_name name collection = mkPublicKey <$> dict_get name collection.
Proof.
  induction collection as [|[n a] collection IH]; simpl; [done|]. by case_bool_decide.
Qed.

Lemma lookup_name_by_address_elem (address : PublicKey) (collection : list (string * string))
    (name : string) :
  _lookup_name_by_address address collection = Some name ->
  (name, b58 address) ∈ collection.
Proof.
  induction collection as [|[n a] collection IH]; simpl; [done|].
  case_bool_decide as Ha.
  - intros [= ->]. subst a. apply list_elem_of_here.
  - intros H. apply list_elem_of_further. by apply IH.
Qed.

Lemma lookup_name_by_address_some (address : PublicKey) (collection : list (string * string))
    (name : string) :
  (name, b58 address) ∈ collection ->
  exists name', _lookup_name_by_address address collection = Some name'.
Proof.
  induction collection as [|[n a] collection IH]; simpl.
  - by intros ?%elem_of_nil.
  - intros Hin. case_bool_decide as Ha; [by eexists|].
    apply elem_of_cons in Hin as [[= ? ?]|Hin]; [congruence|]. by apply IH.
Qed.

(** X14: on a collection (a dict, so with distinct names) the two
    scans undo each other: the name found for an address leads back to
    that address, and the address found for a name is an address some
    name is found for, which leads back to it. *)
Theorem lookup_name_and_address_round_trip (collection : list (string * string)) :
  NoDup (fst <$> collection) ->
  (forall address name,
     _lookup_name_by_address address collection = Some name ->
     _lookup_address_by_name name collection = Some address)
  /\ (forall name address,
      _lookup_address_by_name name collection = Some address ->
      exists name',
        _lookup_name_by_address address collection = Some name'
        /\ _lookup_address_by_name name' collection = Some address).
Proof.
  intros Hnd.
  assert (forall address name,
            _lookup_name_by_address address collection = Some name ->
            _lookup_address_by_name name collection = Some address) as Hback.
  { intros [text] name H. apply lookup_name_by_address_elem in H.
    by rewrite lookup_address_by_name_eq, (dict_get_NoDup name collection text Hnd H). }
  split; [exact Hback|].
  intros name [text] H. rewrite lookup_address_by_name_eq in H.
  destruct (dict_get name collection) as [a|] eqn:Hget; [|done].
  injection H as ->. apply dict_get_elem in Hget.
  destruct (lookup_name_by_address_some (mkPublicKey text) collection name Hget)
    as [name' Hname'].
  exists name'. split; [done|]. by apply Hback.
Qed.

Lemma lookup_name_and_address_round_trip_witness :
  _lookup_name_by_address (mkPublicKey "OracleETH")
    [("BTC"%string, "OracleBTC"%string); ("ETH"%string, "OracleETH"%string)]
  = Some "ETH"%string
  /\ _lookup_address_by_name "ETH"
       [("BTC"%string, "OracleBTC"%string); ("ETH"%string, "OracleETH"%string)]
     = Some (mkPublicKey "OracleETH").
Proof.
  split; [reflexivity|].
  apply (proj1 (lookup_name_and_address_round_trip
                  [("BTC"%string, "OracleBTC"%string); ("ETH"%string, "OracleETH"%string)]
                  ltac:(apply (bool_decide_unpack (NoDup _)); by vm_compute))).
  reflexivity.
Defined.

Lemma lookup_name_by_address_None (address : PublicKey)
    (collection : list (string * string)) :
  (forall n a, (n, a) ∈ collection -> a <> b58 address) ->
  _lookup_name_by_address address collection = None.
Proof.
  induction collection as [|[n a] collection IH]; intros Hne; simpl; [done|].
  rewrite bool_decide_eq_false_2 by (apply (Hne n), list_elem_of_here).
  apply IH. intros n' a' Hin. apply (Hne n'). by apply list_elem_of_further.
Qed.

Lemma lookup_name_by_address_first (address : PublicKey)
    (pre post : list (string * string)) (name : string) :
  (forall n a, (n, a) ∈ pre -> a <> b58 address) ->
  _lookup_name_by_address address (pre ++ (name, b58 address) :: post) = Some name.
Proof.
  induction pre as [|[n a] pre IH]; intros Hne; simpl.
  - by rewrite bool_decide_eq_true_2.
  - rewrite bool_decide_eq_false_2 by (apply (Hne n), list_elem_of_here).
    apply IH. intros n' a' Hin. apply (Hne n'). by apply list_elem_of_further.
Qed.

(** X15: [lookup_oracle_name] gives the name of the first oracle of the
    context's cluster registered under the address, and the label
    "« Unknown Oracle »" when there is none, and also when that name is
    the empty string, which [or] treats as no name. *)
Theorem lookup_oracle_name_hit_and_miss
    (oracles : string -> outcome (list (string * string))) (self : Context)
    (token_address : PublicKey) (collection : list (string * string)) :
  oracles (cluster self) = Return collection ->
  ((forall n a, (n, a) ∈ collection -> a <> b58 token_address) ->
   lookup_oracle_name oracles self token_address = Return "« Unknown Oracle »"%string)
  /\ (forall pre name post,
      collection = pre ++ (name, b58 token_address) :: post ->
      (forall n a, (n, a) ∈ pre -> a <> b58 token_address) ->
      lookup_oracle_name oracles self token_address
      = Return (if bool_decide (name = ""%string) then "« Unknown Oracle »"%string
                else name)).
Proof.
  intros Hcoll. unfold lookup_oracle_name. rewrite Hcoll. simpl. split.
  - intros Hne. by rewrite lookup_name_by_address_None.
  - intros pre name post -> Hne. by rewrite lookup_name_by_address_first.
Qed.

Lemma lookup_oracle_name_hit_and_miss_witness :
  lookup_oracle_name example_oracles example_devnet_context (mkPublicKey "OracleNameless")
  = Return "« Unknown Oracle »"%string
  /\ lookup_oracle_name example_oracles example_devnet_context (mkPublicKey "OracleETH")
     = Return "ETH"%string.
Proof.
  split.
  - apply (proj2 (lookup_oracle_name_hit_and_miss example_oracles example_devnet_context
                    (mkPublicKey "OracleNameless") _ eq_refl)
             [("BTC"%string, "OracleBTC"%string)] ""%string
             [("ETH"%string, "OracleETH"%string)] eq_refl).
    intros n a Hin. apply list_elem_of_singleton in Hin as [= -> ->]. discriminate.
  - apply (proj2 (lookup_oracle_name_hit_and_miss example_oracles example_devnet_context
                    (mkPublicKey "OracleETH") _ eq_refl)
             [("BTC"%string, "OracleBTC"%string); (""%string, "OracleNameless"%string)]
             "ETH"%string [] eq_refl).
    intros n a Hin.
    repeat (apply elem_of_cons in Hin as [[= -> ->]|Hin]; [discriminate|]).
    by apply elem_of_nil in Hin.
Defined.

(** ** The command line and the module defaults *)

(** X16: [from_context_command_line_parameters] builds, and raises,
    what [from_command_line] does on the six parsed values: the
    replacement of the program id it makes on its own is the one the
    constructor makes anyway. *)
Theorem command_line_parameters_as_from_command_line
    (K : Ids.Constants) (D : Defaults) (args : Namespace) :
  from_context_command_line_parameters K D args
  = from_command_line K D (args_cluster args) (args_cluster_url args)
      (args_program_id args) (args_dex_program_id args) (args_group_name args)
      (args_group_id args).
Proof.
  unfold from_context_command_line_parameters, from_command_line.
  destruct (negb _ && _).
  - destruct (Ids.group_pk_of K (args_cluster args) (args_group_name args)) as [pk|];
      simpl; [|done].
    f_equal. apply init_substitution_absorbs.
  - simpl. f_equal. apply init_substitution_absorbs.
Qed.

(** X17: a command line with none of the six options gives
    [default_context], through either factory and without reading the
    registry: it holds for every registry, an empty one included. *)
Theorem no_option_gives_default_context (K : Ids.Constants) (D : Defaults) :
  from_context_command_line_parameters K D (parsed_defaults D) = Return (default_context D)
  /\ from_command_line K D (default_cluster D) (default_cluster_url D)
       (default_program_id D) (default_dex_program_id D) (default_group_name D)
       (default_group_id D)
     = Return (default_context D).
Proof.
  unfold from_context_command_line_parameters, from_command_line, parsed_defaults,
    default_context. simpl.
  rewrite (bool_decide_eq_true_2 (default_group_name D = default_group_name D)) by done.
  simpl. split; [|done]. f_equal. apply init_substitution_absorbs.
Qed.

(** X18: when the module loads with [CLUSTER_URL] unset or empty, the
    context [from_cluster_and_group_name] builds for the default
    cluster and the default group name is [default_context]; and the
    defaults the module computes name a cluster and a group the
    registry has. *)
Theorem loaded_defaults_agree_with_the_registry
    (env : Environ) (K : Ids.Constants) (D : Defaults) :
  load_defaults env K = Return D ->
  (exists e,
     Ids.clusters K !! default_cluster D = Some e
     /\ default_program_id D = mkPublicKey (Ids.mango_program_id e)
     /\ default_dex_program_id D = mkPublicKey (Ids.dex_program_id e)
     /\ dict_get (default_group_name D) (Ids.mango_groups e)
        = Some (Ids.mkGroupEntry (b58 (default_group_id D))))
  /\ (CLUSTER_URL env = None \/ CLUSTER_URL env = Some ""%string ->
      from_cluster_and_group_name K (default_cluster D) (default_group_name D)
      = Return (default_context D)).
Proof.
  intros H. unfold load_defaults in H.
  apply bind_Return_inv in H as (c & Hc & H).
  apply bind_Return_inv in H as (u & Hu & H).
  apply bind_Return_inv in H as (e & He & H).
  apply bind_Return_inv in H as (n & Hn & H).
  apply bind_Return_inv in H as (pk & Hpk & H).
  injection H as <-. simpl.
  assert (Ids.clusters K !! c = Some e) as Hce.
  { unfold Ids.cluster_entry in He. by destruct (Ids.clusters K !! c) as [e'|]; [injection He as ->|]. }
  assert (dict_get n (Ids.mango_groups e) = Some (Ids.mkGroupEntry pk)) as Hg.
  { unfold Ids.group_pk_of, Ids.cluster_entry, getitem in Hpk. rewrite Hce in Hpk.
    simpl in Hpk. destruct (dict_get n (Ids.mango_groups e)) as [[pk']|]; [|done].
    simpl in Hpk. by injection Hpk as ->. }
  split; [by exists e|].
  intros Hurl. unfold from_cluster_and_group_name, default_context. simpl.
  assert (Ids.cluster_url_of K c = Return u) as ->.
  { unfold env_or in Hu. destruct Hurl as [Hurl|Hurl]; by rewrite Hurl in Hu. }
  simpl. rewrite He. simpl. by rewrite Hpk.
Qed.

Lemma loaded_defaults_agree_with_the_registry_witness :
  from_cluster_and_group_name example_constants "mainnet-beta" "BTC_ETH_USDT"
  = Return (default_context example_defaults).
Proof.
  apply (proj2 (loaded_defaults_agree_with_the_registry (mkEnviron None (Some "") None)
                  example_constants example_defaults ltac:(by vm_compute))).
  by right.
Defined.

(** * Further properties of idsjsonmarketlookup.py *)

(** ** _from_dict and the token list *)

(** X19: [_from_dict] reads the first two tokens only: the tokens after
    them change nothing, so a base or quote token listed third or later
    is not found. *)
Theorem from_dict_ignores_later_tokens
    (market_type : IdsJsonMarketType) (group_address : PublicKey) (data : Ids.MarketData)
    (t0 t1 : Token) (rest : list Token) (quote_symbol : string) :
  _from_dict market_type group_address data (t0 :: t1 :: rest) quote_symbol
  = _from_dict market_type group_address data [t0; t1] quote_symbol.
Proof. by rewrite !from_dict_pair_eq. Qed.

(** X20: with fewer than two tokens [_from_dict] never returns: an
    empty list raises [IndexError]; a single token raises [IndexError]
    when its symbol is the quote or the base symbol (the second
    subscript fails) and the "could not find" exception otherwise. *)
Theorem from_dict_fewer_than_two_tokens
    (market_type : IdsJsonMarketType) (group_address : PublicKey) (data : Ids.MarketData)
    (quote_symbol : string) :
  _from_dict market_type group_address data [] quote_symbol = Raise IndexError
  /\ forall t0,
       (symbol t0 = quote_symbol \/ symbol t0 = Ids.md_baseSymbol data ->
        _from_dict market_type group_address data [t0] quote_symbol = Raise IndexError)
       /\ (symbol t0 <> quote_symbol -> symbol t0 <> Ids.md_baseSymbol data ->
           _from_dict market_type group_address data [t0] quote_symbol
           = Raise (Exception [Lit "Could not find base ('";
                               Interp (VStr (Ids.md_baseSymbol data));
                               Lit "') or quote symbol ('"; Interp (VStr quote_symbol);
                               Lit "') in tokens."])).
Proof.
  split; [done|]. intros t0. unfold _from_dict, py_and, symbol_at, index. simpl. split.
  - intros [Hq|Hb].
    + rewrite (bool_decide_eq_true_2 _ Hq). reflexivity.
    + rewrite (bool_decide_eq_true_2 _ Hb).
      destruct (bool_decide (symbol t0 = quote_symbol)); reflexivity.
  - intros Hq Hb.
    rewrite (bool_decide_eq_false_2 _ Hq). simpl.
    rewrite (bool_decide_eq_false_2 _ Hb). reflexivity.
Qed.

Lemma from_dict_fewer_than_two_tokens_witness :
  _from_dict SPOT (mkPublicKey "GroupA")
    (Ids.mkMarketData "BTC/USDC" "a-spot-btc" "SpotBTC" "BTC")
    [mkToken "BTC" "BTC" (mkPublicKey "MintBTC") 6] "USDC"
  = Raise IndexError
  /\ _from_dict SPOT (mkPublicKey "GroupA")
       (Ids.mkMarketData "BTC/USDC" "a-spot-btc" "SpotBTC" "BTC")
       [mkToken "SOL" "SOL" (mkPublicKey "MintSOL") 9] "USDC"
     = Raise (Exception [Lit "Could not find base ('"; Interp (VStr "BTC");
                         Lit "') or quote symbol ('"; Interp (VStr "USDC");
                         Lit "') in tokens."]).
Proof.
  split.
  - apply (proj1 (proj2 (from_dict_fewer_than_two_tokens SPOT (mkPublicKey "GroupA")
                           (Ids.mkMarketData "BTC/USDC" "a-spot-btc" "SpotBTC" "BTC")
                           "USDC") _)).
    by right.
  - apply (proj2 (proj2 (from_dict_fewer_than_two_tokens SPOT (mkPublicKey "GroupA")
                           (Ids.mkMarketData "BTC/USDC" "a-spot-btc" "SpotBTC" "BTC")
                           "USDC") _)); discriminate.
Defined.

Lemma load_token_eq (td : Ids.TokenData) (tds : list Ids.TokenData) :
  _load_tokens (td :: tds)
  = mkToken (Ids.td_symbol td) (Ids.td_symbol td) (mkPublicKey (Ids.td_mintKey td))
            (Ids.td_decimals td) :: _load_tokens tds.
Proof. reflexivity. Qed.

(** X21: a market a lookup builds from an entry of a group carries the
    registry's data: its base and quote are two of the first two token
    entries of the group, the one with the entry's base symbol and the
    one with the group's quote symbol, each with its symbol also as its
    name, its mint key and its decimals; its address is the entry's
    ["publicKey"]; a spot market carries the group's address. *)
Theorem construct_carries_registry_data
    (g : Ids.Group) (e : IdsJsonMarketType * Ids.MarketData) (m : Market) :
  construct g e = Return m ->
  exists tb tq,
    tb ∈ take 2 (Ids.group_tokens g) /\ tq ∈ take 2 (Ids.group_tokens g)
    /\ Ids.td_symbol tb = Ids.md_baseSymbol e.2
    /\ Ids.td_symbol tq = Ids.group_quoteSymbol g
    /\ base_of m = mkToken (Ids.td_symbol tb) (Ids.td_symbol tb)
                     (mkPublicKey (Ids.td_mintKey tb)) (Ids.td_decimals tb)
    /\ quote_of m = mkToken (Ids.td_symbol tq) (Ids.td_symbol tq)
                      (mkPublicKey (Ids.td_mintKey tq)) (Ids.td_decimals tq)
    /\ m = market_of_type e.1 (mkPublicKey (Ids.group_publicKey g))
             (mkPublicKey (Ids.md_publicKey e.2)) (base_of m) (quote_of m).
Proof.
  unfold construct. destruct e as [ty md]. simpl.
  destruct (Ids.group_tokens g) as [|td0 [|td1 rest]] eqn:Htok.
  - done.
  - intros H. exfalso. revert H.
    unfold _from_dict, py_and, symbol_at, index. simpl.
    repeat (case_bool_decide; simpl; try done).
  - rewrite !load_token_eq, from_dict_pair_eq. cbv zeta. simpl.
    case_bool_decide as H1.
    + intros [= <-]. destruct H1 as [Hq Hb]. exists td1, td0.
      repeat split; try done;
        try (apply elem_of_cons; right; apply list_elem_of_here);
        try apply list_elem_of_here; by destruct ty.
    + case_bool_decide as H2; [|done].
      intros [= <-]. destruct H2 as [Hb Hq]. exists td0, td1.
      repeat split; try done;
        try (apply elem_of_cons; right; apply list_elem_of_here);
        try apply list_elem_of_here; by destruct ty.
Qed.

Lemma construct_carries_registry_data_witness :
  exists tb tq,
    tb ∈ take 2 (Ids.group_tokens group_B) /\ tq ∈ take 2 (Ids.group_tokens group_B)
    /\ Ids.td_symbol tb = "ETH"%string /\ Ids.td_symbol tq = "USDC"%string.
Proof.
  destruct (construct_carries_registry_data group_B
              (PERP, Ids.mkMarketData "ETH-PERP" "b-perp-eth" "PerpETH" "ETH")
              (PerpsMarket (mkToken "ETH" "ETH" (mkPublicKey "MintETH") 6)
                           (mkToken "USDC" "USDC" (mkPublicKey "MintUSDC") 6)
                           (mkPublicKey "PerpETH")) eq_refl)
    as (tb & tq & Hb & Hq & Hsb & Hsq & _).
  by exists tb, tq.
Defined.

(** ** The lookups over the registry *)

(** X22: [find_by_symbol] does not tell apart symbols that are equal
    once upper-cased, whatever [str.upper] does to text; in particular
    the upper-cased symbol finds what the symbol finds, as upper-casing
    twice is upper-casing once (which [upper] does on ASCII text). *)
Theorem find_by_symbol_ignores_case
    (K : Ids.Constants) (self : IdsJsonMarketLookup) (symbol symbol' : string) :
  (forall str_upper : string -> string,
     str_upper symbol = str_upper symbol' ->
     find_by_symbol str_upper K self symbol = find_by_symbol str_upper K self symbol')
  /\ (forall str_upper : string -> string,
      (forall s, str_upper (str_upper s) = str_upper s) ->
      find_by_symbol str_upper K self (str_upper symbol)
      = find_by_symbol str_upper K self symbol)
  /\ find_by_symbol upper K self (upper symbol) = find_by_symbol upper K self symbol.
Proof.
  split; [|split].
  - intros str_upper H. rewrite !find_by_symbol_eq. by rewrite H.
  - intros str_upper Hidem. rewrite !find_by_symbol_eq. by rewrite Hidem.
  - rewrite !find_by_symbol_eq. by rewrite upper_idem.
Qed.

Lemma find_by_symbol_ignores_case_witness :
  find_by_symbol upper example_constants (mkIdsJsonMarketLookup "devnet") "Btc-Perp"
  = find_by_symbol upper example_constants (mkIdsJsonMarketLookup "devnet") "bTC-pERP".
Proof.
  apply (proj1 (find_by_symbol_ignores_case example_constants
                  (mkIdsJsonMarketLookup "devnet") "Btc-Perp" "bTC-pERP") upper).
  reflexivity.
Defined.

Lemma first_return_filter {A R : Type} (P : A -> Prop) `{!forall x, Decision (P x)}
    (body : A -> option R) (xs : list A) :
  (forall x, ~ P x -> body x = None) ->
  first_return body (filter P xs) = first_return body xs.
Proof.
  intros Hnone. induction xs as [|x xs IH]; [done|].
  rewrite filter_cons. destruct (decide (P x)) as [Hx|Hx]; simpl.
  - by rewrite IH.
  - by rewrite (Hnone x Hx).
Qed.

Lemma for_each_filter {A S : Type} (P : A -> Prop) `{!forall x, Decision (P x)}
    (body : A -> S -> outcome S) (xs : list A) (s : S) :
  (forall x s', ~ P x -> body x s' = Return s') ->
  for_each body (filter P xs) s = for_each body xs s.
Proof.
  intros Hskip. revert s. induction xs as [|x xs IH]; intros s; [done|].
  rewrite filter_cons. destruct (decide (P x)) as [Hx|Hx]; simpl.
  - destruct (body x s); simpl; [apply IH|done].
  - rewrite (Hskip x s Hx). simpl. apply IH.
Qed.

Lemma first_match_filter (K : Ids.Constants) (cluster : string)
    (matches : Ids.MarketData -> bool) (gs : list Ids.Group) :
  filter (fun g => Ids.group_cluster g = cluster) (Ids.groups K) = gs ->
  first_match K cluster matches
  = first_return (fun group =>
      if bool_decide (Ids.group_cluster group = cluster) then
        first_return (fun entry => if matches entry.2 then Some (group, entry) else None)
                     (entries group)
      else None) gs.
Proof.
  intros <-. unfold first_match. symmetry.
  apply (first_return_filter (fun g => Ids.group_cluster g = cluster)).
  intros g Hg. by rewrite (bool_decide_eq_false_2 _ Hg).
Qed.

(** X23: the three lookups read the groups of their own cluster only:
    two registries whose groups of that cluster are the same, in the
    same order, give the same answers, whatever groups of other
    clusters stand between them. *)
Theorem lookups_read_their_cluster_only
    (K1 K2 : Ids.Constants) (self : IdsJsonMarketLookup) :
  filter (fun g => Ids.group_cluster g = lookup_cluster self) (Ids.groups K1)
  = filter (fun g => Ids.group_cluster g = lookup_cluster self) (Ids.groups K2) ->
  (forall str_upper symbol,
     find_by_symbol str_upper K1 self symbol = find_by_symbol str_upper K2 self symbol)
  /\ (forall address, find_by_address K1 self address = find_by_address K2 self address)
  /\ all_markets K1 self = all_markets K2 self.
Proof.
  intros Hsame. repeat split.
  - intros str_upper symbol. rewrite !find_by_symbol_eq.
    by rewrite (first_match_filter K1 _ _ _ Hsame), (first_match_filter K2 _ _ _ eq_refl).
  - intros address. rewrite !find_by_address_eq.
    by rewrite (first_match_filter K1 _ _ _ Hsame), (first_match_filter K2 _ _ _ eq_refl).
  - rewrite !all_markets_eq.
    rewrite <- (for_each_filter (fun g => Ids.group_cluster g = lookup_cluster self)
                  (markets_after_group self) (Ids.groups K1)),
            <- (for_each_filter (fun g => Ids.group_cluster g = lookup_cluster self)
                  (markets_after_group self) (Ids.groups K2)).
    + by rewrite Hsame.
    + intros g s Hg. unfold markets_after_group. by rewrite (bool_decide_eq_false_2 _ Hg).
    + intros g s Hg. unfold markets_after_group. by rewrite (bool_decide_eq_false_2 _ Hg).
Qed.

Lemma lookups_read_their_cluster_only_witness :
  all_markets two_token_constants (mkIdsJsonMarketLookup "devnet")
  = all_markets (Ids.mkConstants ∅ ∅ [group_A; group_B; group_C])
                (mkIdsJsonMarketLookup "devnet").
Proof.
  apply (lookups_read_their_cluster_only two_token_constants
           (Ids.mkConstants ∅ ∅ [group_A; group_B; group_C])
           (mkIdsJsonMarketLookup "devnet")).
  by vm_compute.
Defined.

(** ** all_markets: when it returns *)

Lemma overwrite_loop_returns_inv (g : Ids.Group) (market_type : IdsJsonMarketType)
    (mds : list Ids.MarketData) (markets markets' : list Market) :
  for_each (fun market_data (_ : list Market) =>
              market ← construct g (market_type, market_data); mret [market]) mds markets
  = Return markets' ->
  forall md, md ∈ mds -> exists m, construct g (market_type, md) = Return m.
Proof.
  revert markets. induction mds as [|md0 mds IH]; intros markets H md Hin.
  - by apply elem_of_nil in Hin.
  - cbn [for_each] in H. destruct (construct g (market_type, md0)) as [m0|] eqn:Hm0; [|done].
    simpl in H. apply elem_of_cons in Hin as [->|Hin]; [by eexists|].
    by apply (IH [m0]).
Qed.

Lemma markets_after_group_returns_inv (self : IdsJsonMarketLookup) (g : Ids.Group)
    (markets markets' : list Market) :
  markets_after_group self g markets = Return markets' ->
  Ids.group_cluster g = lookup_cluster self ->
  forall e, e ∈ entries g -> exists m, construct g e = Return m.
Proof.
  intros H Hc e He. unfold markets_after_group in H.
  rewrite (bool_decide_eq_true_2 _ Hc) in H.
  apply bind_Return_inv in H as (markets1 & Hp & Hs).
  apply elem_of_app in He as [He|He];
    apply list_elem_of_fmap in He as (md & -> & Hmd).
  - by apply (overwrite_loop_returns_inv g PERP _ _ _ Hp).
  - by apply (overwrite_loop_returns_inv g SPOT _ _ _ Hs).
Qed.

(** X24: [all_markets] returns exactly when every market entry of every
    group of its cluster can be built; one entry that cannot makes the
    whole call raise, wherever it stands. *)
Theorem all_markets_returns_iff (K : Ids.Constants) (self : IdsJsonMarketLookup) :
  (exists markets, all_markets K self = Return markets)
  <-> forall g, g ∈ Ids.groups K -> Ids.group_cluster g = lookup_cluster self ->
        forall e, e ∈ entries g -> exists m, construct g e = Return m.
Proof.
  rewrite all_markets_eq. split.
  - intros [markets H]. revert H. generalize (@nil Market) as acc.
    induction (Ids.groups K) as [|g0 gs IH]; intros acc H g Hg Hc e He.
    + by apply elem_of_nil in Hg.
    + cbn [for_each] in H. apply bind_Return_inv in H as (acc' & H0 & H).
      apply elem_of_cons in Hg as [->|Hg].
      * by apply (markets_after_group_returns_inv self g0 acc acc').
      * by apply (IH acc' H g).
  - intros Hall. by apply markets_after_groups_return.
Qed.

Lemma all_markets_returns_iff_witness :
  exists markets,
    all_markets (Ids.mkConstants ∅ ∅ [group_B]) (mkIdsJsonMarketLookup "devnet")
    = Return markets.
Proof.
  apply (proj2 (all_markets_returns_iff (Ids.mkConstants ∅ ∅ [group_B])
                  (mkIdsJsonMarketLookup "devnet"))).
  intros g Hg _ e He. apply list_elem_of_singleton in Hg as ->.
  apply list_elem_of_singleton in He as ->. by eexists.
Defined.

(** X25: whatever the registry, a sequence [all_markets] returns holds
    one market at most; and when no group of its cluster has a market
    entry (no group at all, for one) it returns the empty sequence. *)
Theorem all_markets_one_at_most (K : Ids.Constants) (self : IdsJsonMarketLookup) :
  (forall markets, all_markets K self = Return markets -> (length markets <= 1)%nat)
  /\ ((forall g, g ∈ Ids.groups K -> Ids.group_cluster g = lookup_cluster self ->
         entries g = []) ->
      all_markets K self = Return []).
Proof.
  split.
  - apply all_markets_at_most_one.
  - intros Hempty. rewrite all_markets_eq.
    by apply markets_after_groups_without_entries.
Qed.

Lemma all_markets_one_at_most_witness :
  all_markets two_token_constants (mkIdsJsonMarketLookup "testnet") = Return []
  /\ (length [PerpsMarket (mkToken "ETH" "ETH" (mkPublicKey "MintETH") 6)
                          (mkToken "USDC" "USDC" (mkPublicKey "MintUSDC") 6)
                          (mkPublicKey "PerpETH")] <= 1)%nat.
Proof.
  pose proof (all_markets_one_at_most two_token_constants (mkIdsJsonMarketLookup "testnet"))
    as [_ Hempty].
  pose proof (all_markets_one_at_most two_token_constants (mkIdsJsonMarketLookup "devnet"))
    as [Hone _].
  split.
  - apply Hempty. intros g Hg Hc. exfalso.
    repeat (apply elem_of_cons in Hg as [->|Hg]; [discriminate Hc|]).
    by apply elem_of_nil in Hg.
  - apply Hone. by vm_compute.
Defined.

(** ** find_by_address: the address of what it finds *)

(** X26: the market [find_by_address] returns is looked up by the
    ["key"] of an entry but addressed by that entry's ["publicKey"]: its
    address is the address asked for when the two fields of the
    registry's entries agree, and need not be otherwise. *)
Theorem find_by_address_returns_the_public_key
    (K : Ids.Constants) (self : IdsJsonMarketLookup) (address : PublicKey) (m : Market) :
  find_by_address K self address = Return (Some m) ->
  (exists g e,
     g ∈ Ids.groups K /\ Ids.group_cluster g = lookup_cluster self /\ e ∈ entries g
     /\ Ids.md_key e.2 = b58 address
     /\ address_of m = mkPublicKey (Ids.md_publicKey e.2))
  /\ ((forall g e, g ∈ Ids.groups K -> e ∈ entries g ->
         Ids.md_publicKey e.2 = Ids.md_key e.2) ->
      address_of m = address).
Proof.
  intros H. rewrite find_by_address_eq in H.
  destruct (first_match _ _ _) as [[g e]|] eqn:Hfm; [|done].
  apply first_match_Some_inv in Hfm as (Hg & Hc & He & Hm).
  apply bool_decide_eq_true_1 in Hm. simpl in H.
  destruct (construct g e) as [m'|] eqn:Hcon; [|done]. injection H as ->.
  assert (address_of m = mkPublicKey (Ids.md_publicKey e.2)) as Haddr.
  { revert Hcon. unfold construct, _from_dict.
    intros Hcon. apply bind_Return_inv in Hcon as (c1 & _ & Hcon).
    apply bind_Return_inv in Hcon as ([b q] & _ & Hcon).
    destruct e.1; by injection Hcon as <-. }
  split.
  - by exists g, e.
  - intros Hsame. rewrite Haddr, (Hsame g e Hg He), Hm. by destruct address.
Qed.

Lemma find_by_address_returns_the_public_key_witness :
  exists m,
    find_by_address example_constants (mkIdsJsonMarketLookup "devnet")
      (mkPublicKey "spot-btc") = Return (Some m)
    /\ address_of m = mkPublicKey "BCqDfFd119UyNEC2HavKdy3F4qhy6EMGirSurNWKgioW".
Proof.
  eexists. split; [by vm_compute|].
  destruct (proj1 (find_by_address_returns_the_public_key example_constants
                     (mkIdsJsonMarketLookup "devnet") (mkPublicKey "spot-btc") _ eq_refl))
    as (g & e & _ & _ & _ & _ & _).
  reflexivity.
Defined.
